(** * Meeting lifecycle of the vemeego backend

    Shallow embedding of [backend/app/services/meeting_service.py]
    (class [MeetingService]) and of the router handler that guards
    [mark_call_as_missed].  The relational store is an explicit state:
    the three tables [meetings], [meeting_participants] and
    [meeting_chat_messages], a log of the media-room close calls, the
    next fresh row id and the current time ([datetime.utcnow()]).
    Service exceptions ([NotFoundError], [AuthorizationError],
    [BadRequestError]) are the error branch of a state/error monad; as in
    Python, writes done before an exception stay in the store. *)

From Stdlib Require Import List String Bool Arith Lia Permutation.
Import ListNotations.
Open Scope string_scope.

(** ** Data model ([app/models/meeting.py]) *)

Inductive meeting_type := Instant | Scheduled | Webinar.
Inductive meeting_status := MScheduled | MActive | MCompleted | MCancelled | MNotAnswered.
Inductive participant_role := Host | Assistant | Attendee.
Inductive participant_status := Invited | Accepted | Declined | Joined | Missed.

Scheme Equality for meeting_type.
Scheme Equality for meeting_status.
Scheme Equality for participant_role.
Scheme Equality for participant_status.

(** A row of [meetings]. Ids (rows and users) are naturals. *)
Record meeting := mkMeeting {
  m_id : nat;
  m_title : string;
  m_type : meeting_type;
  m_status : meeting_status;
  m_is_open : bool;
  m_host_id : nat;
  m_room_name : string;   (* "" stands for a falsy room_name *)
  m_end_time : option nat
}.

(** A row of [meeting_participants]: a user reference or an external
    invitee identified by email. *)
Record participant := mkParticipant {
  p_id : nat;
  p_meeting_id : nat;
  p_user_id : option nat;
  p_email : option string;
  p_name : option string;
  p_role : participant_role;
  p_status : participant_status;
  p_joined_at : option nat;
  p_left_at : option nat
}.

(** A row of [meeting_chat_messages]. *)
Record chat_message := mkChat {
  c_id : nat;
  c_meeting_id : nat;
  c_sender_id : nat;
  c_sender_name : string;
  c_content : string
}.

Record store := mkStore {
  meetings : list meeting;
  participants : list participant;
  chats : list chat_message;
  closed_rooms : list string;   (* every [livekit_api.delete_room] call *)
  next_id : nat;
  now : nat
}.

(** ** State / error monad *)

(** [QueryError]: an [APIError] raised by the table client itself (not an
    [AppException]; the routers answer it with 500). *)
Inductive app_error := NotFound | Forbidden | BadRequest | QueryError.

Inductive result (A : Type) := Ok (a : A) | Err (e : app_error).
Arguments Ok {A} a.
Arguments Err {A} e.

Definition M (A : Type) := store -> result A * store.

Definition ret {A} (a : A) : M A := fun s => (Ok a, s).
Definition raise {A} (e : app_error) : M A := fun s => (Err e, s).
Definition bind {A B} (c : M A) (k : A -> M B) : M B :=
  fun s => match c s with
           | (Ok a, s') => k a s'
           | (Err e, s') => (Err e, s')
           end.
Definition gets {A} (f : store -> A) : M A := fun s => (Ok (f s), s).
Definition modify (f : store -> store) : M unit := fun s => (Ok tt, f s).

Notation "x <- c ;; k" := (bind c (fun x => k))
  (at level 61, c at next level, right associativity).
Notation "c ;;; k" := (bind c (fun _ => k)) (at level 61, right associativity).

(** ** Row helpers *)

Definition meeting_status_in (st : meeting_status) (l : list meeting_status) : bool :=
  existsb (meeting_status_beq st) l.
Definition participant_status_in (st : participant_status) (l : list participant_status) : bool :=
  existsb (participant_status_beq st) l.

(** [.eq("user_id", v)] on the nullable column: SQL equality, a NULL on
    either side selects nothing. *)
Definition eq_user (col v : option nat) : bool :=
  match col, v with
  | Some a, Some b => Nat.eqb a b
  | _, _ => false
  end.

Definition truthy (s : string) : bool :=
  match s with "" => false | _ => true end.

Definition set_p_status (st : participant_status) (p : participant) : participant :=
  mkParticipant (p_id p) (p_meeting_id p) (p_user_id p) (p_email p) (p_name p)
    (p_role p) st (p_joined_at p) (p_left_at p).
Definition set_p_status_joined (st : participant_status) (t : nat) (p : participant) : participant :=
  mkParticipant (p_id p) (p_meeting_id p) (p_user_id p) (p_email p) (p_name p)
    (p_role p) st (Some t) (p_left_at p).
Definition set_p_left (st : participant_status) (t : nat) (p : participant) : participant :=
  mkParticipant (p_id p) (p_meeting_id p) (p_user_id p) (p_email p) (p_name p)
    (p_role p) st (p_joined_at p) (Some t).
Definition set_m_end (st : meeting_status) (t : nat) (m : meeting) : meeting :=
  mkMeeting (m_id m) (m_title m) (m_type m) st (m_is_open m) (m_host_id m)
    (m_room_name m) (Some t).

(** ** Store primitives (the table API as the service uses it) *)

Definition select_meetings (mid : nat) : M (list meeting) :=
  gets (fun s => filter (fun m => Nat.eqb (m_id m) mid) (meetings s)).

Definition select_participants (f : participant -> bool) : M (list participant) :=
  gets (fun s => filter f (participants s)).

Definition select_chats (mid : nat) : M (list chat_message) :=
  gets (fun s => filter (fun c => Nat.eqb (c_meeting_id c) mid) (chats s)).

(** [.update(d).eq("id", pid)]: rewrite every matching row, return them. *)
Definition update_participants (pid : nat) (upd : participant -> participant)
  : M (list participant) :=
  fun s =>
    let sel p := Nat.eqb (p_id p) pid in
    let ps' := map (fun p => if sel p then upd p else p) (participants s) in
    (Ok (map upd (filter sel (participants s))),
     mkStore (meetings s) ps' (chats s) (closed_rooms s) (next_id s) (now s)).

Definition update_meetings (mid : nat) (upd : meeting -> meeting) : M (list meeting) :=
  fun s =>
    let sel m := Nat.eqb (m_id m) mid in
    let ms' := map (fun m => if sel m then upd m else m) (meetings s) in
    (Ok (map upd (filter sel (meetings s))),
     mkStore ms' (participants s) (chats s) (closed_rooms s) (next_id s) (now s)).

(** [.delete().eq("meeting_id", mid)] on the chat table. *)
Definition delete_chats (mid : nat) : M unit :=
  modify (fun s => mkStore (meetings s) (participants s)
    (filter (fun c => negb (Nat.eqb (c_meeting_id c) mid)) (chats s))
    (closed_rooms s) (next_id s) (now s)).

(** [livekit_api.delete_room(...)]; best effort, recorded as invoked. *)
Definition close_room (name : string) : M unit :=
  modify (fun s => mkStore (meetings s) (participants s) (chats s)
    (closed_rooms s ++ [name]) (next_id s) (now s)).

Definition fresh_id : M nat :=
  fun s => (Ok (next_id s),
            mkStore (meetings s) (participants s) (chats s) (closed_rooms s)
              (S (next_id s)) (now s)).

Definition insert_participant_row (mk : nat -> participant) : M participant :=
  i <- fresh_id ;;
  fun s => (Ok (mk i), mkStore (meetings s) (participants s ++ [mk i]) (chats s)
                         (closed_rooms s) (next_id s) (now s)).

Definition insert_meeting_row (mk : nat -> meeting) : M meeting :=
  i <- fresh_id ;;
  fun s => (Ok (mk i), mkStore (meetings s ++ [mk i]) (participants s) (chats s)
                         (closed_rooms s) (next_id s) (now s)).

Definition insert_chat_row (mk : nat -> chat_message) : M chat_message :=
  i <- fresh_id ;;
  fun s => (Ok (mk i), mkStore (meetings s) (participants s) (chats s ++ [mk i])
                         (closed_rooms s) (next_id s) (now s)).

Definition utcnow : M nat := gets now.

(** First meeting row with a given id, i.e. [meeting_response.data[0]]. *)
Definition meeting_lookup (s : store) (mid : nat) : option meeting :=
  hd_error (filter (fun m => Nat.eqb (m_id m) mid) (meetings s)).

Definition participants_of (s : store) (mid : nat) : list participant :=
  filter (fun p => Nat.eqb (p_meeting_id p) mid) (participants s).

(** ** MeetingService *)

(** Input of [create_meeting] / [invite_participant] for one invitee
    ([ParticipantInput.dict()]). *)
Record participant_input := mkInput {
  pd_user_id : option nat;
  pd_email : option string;
  pd_name : option string;
  pd_role : participant_role
}.

(** Outcome of the three inserts of [create_meeting] in the external
    store: [true] when that insert raises. *)
Record create_faults := mkFaults {
  meeting_insert_fails : bool;
  host_insert_fails : bool;
  invitees_insert_fails : bool
}.

(** [p_data] of [create_meeting]: user reference, else email and name. *)
Definition invitee_row (mid : nat) (p : participant_input) (i : nat) : participant :=
  match pd_user_id p with
  | Some u => mkParticipant i mid (Some u) None None (pd_role p) Invited None None
  | None =>
      match pd_email p with
      | Some e => if truthy e
                  then mkParticipant i mid None (Some e) (pd_name p) (pd_role p) Invited None None
                  else mkParticipant i mid None None None (pd_role p) Invited None None
      | None => mkParticipant i mid None None None (pd_role p) Invited None None
      end
  end.

(** The batch insert of the invitees: one statement, all rows or none. *)
Fixpoint insert_invitees (mid : nat) (ps : list participant_input) : M (list participant) :=
  match ps with
  | [] => ret []
  | p :: rest =>
      r <- insert_participant_row (invitee_row mid p) ;;
      rs <- insert_invitees mid rest ;;
      ret (r :: rs)
  end.

(** [room_name] is the generated [f"room_{timestamp}"], never empty. *)
Definition create_meeting (f : create_faults) (title : string) (host_id : nat)
    (ty : meeting_type) (is_open : bool) (room_name : string)
    (ps : list participant_input) : M (meeting * list participant) :=
  if meeting_insert_fails f then raise BadRequest else
  meeting <- insert_meeting_row
               (fun i => mkMeeting i title ty MScheduled is_open host_id room_name None) ;;
  let meeting_id := m_id meeting in
  host_participant_data <-
    (if host_insert_fails f then ret None
     else h <- insert_participant_row
                 (fun i => mkParticipant i meeting_id (Some host_id) None None
                             Host Accepted None None) ;;
          ret (Some h)) ;;
  created_participants <-
    (match ps with
     | [] => ret []
     | _ => if invitees_insert_fails f then ret [] else insert_invitees meeting_id ps
     end) ;;
  let all_participants :=
    match host_participant_data with
    | Some h => h :: created_participants
    | None => created_participants
    end in
  ret (meeting, all_participants).

Definition get_meeting (meeting_id user_id : nat) : M meeting :=
  ms <- select_meetings meeting_id ;;
  match ms with
  | [] => raise NotFound
  | meeting :: _ =>
      if negb (m_is_open meeting) && negb (Nat.eqb (m_host_id meeting) user_id) then
        pr <- select_participants (fun p => Nat.eqb (p_meeting_id p) meeting_id
                                            && eq_user (p_user_id p) (Some user_id)) ;;
        match pr with
        | [] => raise Forbidden
        | _ => ret meeting
        end
      else ret meeting
  end.

(** The [VideoGrants] of the issued token (plus identity and name). *)
Record token := mkToken {
  tok_identity : nat;
  tok_name : string;
  tok_room : string;
  tok_room_join : bool;
  tok_can_publish : bool;
  tok_can_subscribe : bool;
  tok_can_publish_data : bool
}.

Definition generate_token (meeting_id user_id : nat) (user_name : string) : M token :=
  meeting <- get_meeting meeting_id user_id ;;
  pr <- select_participants (fun p => Nat.eqb (p_meeting_id p) meeting_id
                                      && eq_user (p_user_id p) (Some user_id)) ;;
  role <- (match pr with
           | p :: _ => ret (p_role p)
           | [] => if m_is_open meeting then ret Attendee else raise Forbidden
           end) ;;
  let can_publish :=
    if meeting_type_beq (m_type meeting) Webinar && participant_role_beq role Attendee
    then false else true in
  ret (mkToken user_id user_name (m_room_name meeting) true can_publish true true).

Definition invite_participant (meeting_id host_id : nat) (participant_data : participant_input)
  : M participant :=
  meeting <- get_meeting meeting_id host_id ;;
  if negb (Nat.eqb (m_host_id meeting) host_id) then raise Forbidden else
  p_data <- (match pd_user_id participant_data with
             | Some u => ret (fun i => mkParticipant i meeting_id (Some u) None None
                                         (pd_role participant_data) Invited None None)
             | None =>
                 match pd_email participant_data with
                 | Some e =>
                     if truthy e
                     then ret (fun i => mkParticipant i meeting_id None (Some e)
                                          (pd_name participant_data)
                                          (pd_role participant_data) Invited None None)
                     else raise BadRequest
                 | None => raise BadRequest
                 end
             end) ;;
  (* [.eq("user_id", p_data.get("user_id"))]: with a user id, the rows of
     that user; for an email-only invite the value is [None], which the
     client sends as the literal filter [user_id=eq.None]: not a uuid, so
     the query on the uuid column [user_id] is rejected (22P02). *)
  existing <- (match pd_user_id participant_data with
               | Some u => select_participants (fun p => Nat.eqb (p_meeting_id p) meeting_id
                                                         && eq_user (p_user_id p) (Some u))
               | None => raise QueryError
               end) ;;
  match existing with
  | e :: _ => ret e
  | [] => insert_participant_row p_data
  end.

Definition send_chat_message (meeting_id user_id : nat) (user_name content : string)
  : M chat_message :=
  _meeting <- get_meeting meeting_id user_id ;;
  insert_chat_row (fun i => mkChat i meeting_id user_id user_name content).

Definition get_chat_messages (meeting_id user_id : nat) : M (list chat_message) :=
  get_meeting meeting_id user_id ;;; select_chats meeting_id.

Definition get_participant_by_user (meeting_id user_id : nat) : M (option participant) :=
  r <- select_participants (fun p => Nat.eqb (p_meeting_id p) meeting_id
                                     && eq_user (p_user_id p) (Some user_id)) ;;
  ret (hd_error r).

(** [participant_id] is tried as a row id of the meeting, then as a user
    id ([get_participant_by_user], then the same query written inline). *)
Definition update_participant_status (meeting_id participant_id user_id : nat)
    (new_status : participant_status) : M participant :=
  r1 <- select_participants (fun p => Nat.eqb (p_id p) participant_id
                                      && Nat.eqb (p_meeting_id p) meeting_id) ;;
  participant <- (match hd_error r1 with
                  | Some p => ret (Some p)
                  | None => get_participant_by_user meeting_id participant_id
                  end) ;;
  participant <- (match participant with
                  | Some p => ret (Some p)
                  | None =>
                      r3 <- select_participants
                              (fun p => Nat.eqb (p_meeting_id p) meeting_id
                                        && eq_user (p_user_id p) (Some participant_id)) ;;
                      ret (hd_error r3)
                  end) ;;
  match participant with
  | None => raise NotFound
  | Some participant =>
      meeting <- get_meeting meeting_id user_id ;;
      let is_participant_owner := eq_user (p_user_id participant) (Some user_id) in
      let is_meeting_host := Nat.eqb (m_host_id meeting) user_id in
      if negb (is_participant_owner || is_meeting_host) then raise Forbidden else
      if negb (participant_status_in new_status [Accepted; Declined]) then raise BadRequest else
      t <- utcnow ;;
      response <- update_participants (p_id participant)
                    (if participant_status_beq new_status Accepted
                     then set_p_status_joined new_status t
                     else set_p_status new_status) ;;
      match response with
      | [] => raise BadRequest
      | r :: _ => ret r
      end
  end.

Definition end_meeting (meeting_id : nat) : M meeting :=
  ms <- select_meetings meeting_id ;;
  match ms with
  | [] => raise NotFound
  | meeting :: _ =>
      (* Don't end if already completed or cancelled *)
      if meeting_status_in (m_status meeting) [MCompleted; MCancelled] then ret meeting else
      (if truthy (m_room_name meeting) then close_room (m_room_name meeting) else ret tt) ;;;
      delete_chats meeting_id ;;;
      t <- utcnow ;;
      response <- update_meetings meeting_id (set_m_end MCompleted t) ;;
      match response with
      | [] => raise BadRequest
      | r :: _ => ret r
      end
  end.

(** Participants counted as still present by the evaluator. *)
Definition active_participants (ps : list participant) : list participant :=
  filter (fun p => negb (participant_status_in (p_status p) [Declined; Missed])
                   && match p_left_at p with None => true | Some _ => false end) ps.

Definition user_participants (ps : list participant) : list participant :=
  filter (fun p => match p_user_id p with Some _ => true | None => false end) ps.

Definition should_end (ty : meeting_type) (ps : list participant) : bool :=
  let active := active_participants ps in
  if meeting_type_beq ty Instant then
    let total_participants := List.length (user_participants ps) in
    if Nat.eqb total_participants 2 && Nat.leb (List.length active) 1 then true
    else Nat.eqb (List.length active) 0
  else Nat.eqb (List.length active) 0.

Definition check_and_end_meeting_if_needed (meeting_id : nat) : M unit :=
  ms <- select_meetings meeting_id ;;
  match ms with
  | [] => ret tt
  | meeting :: _ =>
      if meeting_status_in (m_status meeting) [MCompleted; MCancelled] then ret tt else
      ps <- select_participants (fun p => Nat.eqb (p_meeting_id p) meeting_id) ;;
      if should_end (m_type meeting) ps then end_meeting meeting_id ;;; ret tt
      else ret tt
  end.

Definition leave_meeting (meeting_id user_id : nat) : M participant :=
  participant <- get_participant_by_user meeting_id user_id ;;
  match participant with
  | None => raise NotFound
  | Some participant =>
      t <- utcnow ;;
      response <- update_participants (p_id participant) (set_p_left Declined t) ;;
      match response with
      | [] => raise BadRequest
      | r :: _ => check_and_end_meeting_if_needed meeting_id ;;; ret r
      end
  end.

(** Teardown of an unanswered call; the final update is inside a
    try/except, its result is ignored. *)
Definition mark_meeting_as_not_answered (meeting_id : nat) (meeting : meeting) : M unit :=
  (if truthy (m_room_name meeting) then close_room (m_room_name meeting) else ret tt) ;;;
  delete_chats meeting_id ;;;
  t <- utcnow ;;
  update_meetings meeting_id (set_m_end MNotAnswered t) ;;;
  ret tt.

Definition mark_call_as_missed (meeting_id participant_id : nat) : M participant :=
  ms <- select_meetings meeting_id ;;
  match ms with
  | [] => raise NotFound
  | meeting :: _ =>
      pr <- select_participants (fun p => Nat.eqb (p_id p) participant_id
                                          && Nat.eqb (p_meeting_id p) meeting_id) ;;
      match pr with
      | [] => raise NotFound
      | participant :: _ =>
          (* Only mark as missed if still in "invited" status *)
          if negb (participant_status_beq (p_status participant) Invited) then ret participant else
          response <- update_participants participant_id (set_p_status Missed) ;;
          match response with
          | [] => raise BadRequest
          | r :: _ =>
              (if meeting_type_beq (m_type meeting) Instant
                  && negb (meeting_status_in (m_status meeting)
                             [MCompleted; MCancelled; MNotAnswered]) then
                 all_participants <- select_participants
                                       (fun p => Nat.eqb (p_meeting_id p) meeting_id) ;;
                 if Nat.eqb (List.length (user_participants all_participants)) 2 then
                   if existsb (fun p => participant_status_beq (p_status p) Missed)
                        all_participants
                   then mark_meeting_as_not_answered meeting_id meeting
                   else ret tt
                 else ret tt
               else ret tt) ;;;
              ret r
          end
      end
  end.

(** Router handler [POST /{meeting_id}/participants/{participant_id}/missed]
    ([app/routers/meetings.py]): access check, then the service call. *)
Definition mark_call_as_missed_endpoint (meeting_id participant_id user_id : nat)
  : M participant :=
  meeting <- get_meeting meeting_id user_id ;;
  pr <- select_participants (fun p => Nat.eqb (p_id p) participant_id
                                      && Nat.eqb (p_meeting_id p) meeting_id) ;;
  match pr with
  | [] => raise NotFound
  | participant :: _ =>
      let is_participant := eq_user (p_user_id participant) (Some user_id) in
      let is_host := Nat.eqb (m_host_id meeting) user_id in
      if negb (is_participant || is_host) then raise Forbidden
      else mark_call_as_missed meeting_id participant_id
  end.

(** ** Sample data *)

Definition host_row (i mid u : nat) : participant :=
  mkParticipant i mid (Some u) None None Host Accepted None None.
Definition invited_row (i mid u : nat) : participant :=
  mkParticipant i mid (Some u) None None Attendee Invited None None.

(** Instant call 1 hosted by user 10, invitee user 20 (row 3), one chat row. *)
Definition call_store (st : meeting_status) : store :=
  mkStore [mkMeeting 1 "call" Instant st false 10 "room_1" None]
          [host_row 2 1 10; invited_row 3 1 20]
          [mkChat 4 1 10 "h" "hello"]
          [] 5 100.

(** First participant row with a given id in a given meeting. *)
Definition participant_lookup (s : store) (mid pid : nat) : option participant :=
  hd_error (filter (fun p => Nat.eqb (p_id p) pid && Nat.eqb (p_meeting_id p) mid)
              (participants s)).

(** ** Store lemmas *)

Lemma filter_map_update {A} (sel : A -> bool) (f : A -> A) (l : list A) :
  (forall x, sel x = true -> sel (f x) = true) ->
  filter sel (map (fun x => if sel x then f x else x) l) = map f (filter sel l).
Proof.
  intros Hf; induction l as [|x l IH]; simpl; [reflexivity|].
  case_eq (sel x); intros Hx; simpl.
  - rewrite (Hf x Hx), IH; reflexivity.
  - rewrite Hx; exact IH.
Qed.

Lemma filter_keeps_other_meetings (mid : nat) (l : list chat_message) :
  filter (fun c => Nat.eqb (c_meeting_id c) mid)
    (filter (fun c => negb (Nat.eqb (c_meeting_id c) mid)) l) = [].
Proof.
  induction l as [|c l IH]; simpl; [reflexivity|].
  destruct (Nat.eqb (c_meeting_id c) mid) eqn:E; simpl; [exact IH|].
  rewrite E; exact IH.
Qed.

(** Rewriting participant rows without touching their meeting and user
    references keeps the user-participant count of every meeting. *)
Lemma user_count_update (mid pid : nat) (g : participant -> participant) (l : list participant) :
  (forall p, p_meeting_id (g p) = p_meeting_id p /\ p_user_id (g p) = p_user_id p) ->
  List.length (user_participants
    (filter (fun p => Nat.eqb (p_meeting_id p) mid)
       (map (fun p => if Nat.eqb (p_id p) pid then g p else p) l)))
  = List.length (user_participants (filter (fun p => Nat.eqb (p_meeting_id p) mid) l)).
Proof.
  intros Hg; induction l as [|p l IH]; simpl; [reflexivity|].
  destruct (Nat.eqb (p_id p) pid); simpl.
  - destruct (Hg p) as [E1 E2]; rewrite E1.
    destruct (Nat.eqb (p_meeting_id p) mid); simpl; [|exact IH].
    rewrite E2; destruct (p_user_id p); simpl; [f_equal|]; exact IH.
  - destruct (Nat.eqb (p_meeting_id p) mid); simpl; [|exact IH].
    destruct (p_user_id p); simpl; [f_equal|]; exact IH.
Qed.

Lemma hd_error_filter_In {A} (f : A -> bool) (l : list A) (x : A) :
  hd_error (filter f l) = Some x -> In x l /\ f x = true.
Proof.
  intros H. destruct (filter f l) as [|y r] eqn:E; [discriminate|].
  simpl in H; inversion H; subst.
  apply filter_In; rewrite E; left; reflexivity.
Qed.

Lemma hd_error_filter_cons {A} (f : A -> bool) (l : list A) (x : A) :
  hd_error (filter f l) = Some x -> exists r, filter f l = x :: r.
Proof.
  intros H. destruct (filter f l) as [|y r]; [discriminate|].
  simpl in H; inversion H; subst; eauto.
Qed.

Ltac lookup_cons H :=
  let r := fresh "rest" in
  let E := fresh "E" in
  destruct (hd_error_filter_cons _ _ _ H) as [r E].

Ltac step :=
  cbv beta iota zeta delta [bind ret raise gets modify select_meetings
    select_participants select_chats update_participants update_meetings delete_chats
    close_room utcnow fresh_id insert_participant_row insert_meeting_row insert_chat_row];
  cbn [negb andb orb map hd_error meetings participants chats closed_rooms next_id now
    meeting_status_beq meeting_type_beq participant_status_beq participant_role_beq].

(** ** Claims *)

(** C4: marking a participant missed when its status is no longer
    [invited] is a no-op: the current row is returned and the store,
    in particular the participant's status, is left unchanged. *)
Theorem mark_missed_noop_unless_invited (s : store) (mid pid : nat) (m : meeting) (p : participant) :
  meeting_lookup s mid = Some m ->
  participant_lookup s mid pid = Some p ->
  p_status p <> Invited ->
  mark_call_as_missed mid pid s = (Ok p, s).
Proof.
  unfold meeting_lookup, participant_lookup; intros Hm Hp Hst.
  lookup_cons Hm; lookup_cons Hp.
  unfold mark_call_as_missed, bind, select_meetings, select_participants, gets.
  rewrite E, E0.
  destruct (p_status p) eqn:Es; try (exfalso; apply Hst; reflexivity); reflexivity.
Qed.

Lemma mark_missed_noop_unless_invited_witness :
  meeting_lookup (call_store MActive) 1
    = Some (mkMeeting 1 "call" Instant MActive false 10 "room_1" None) /\
  participant_lookup (call_store MActive) 1 2 = Some (host_row 2 1 10) /\
  mark_call_as_missed 1 2 (call_store MActive) = (Ok (host_row 2 1 10), call_store MActive).
Proof.
  split; [reflexivity|]. split; [reflexivity|].
  apply (mark_missed_noop_unless_invited (call_store MActive) 1 2
           (mkMeeting 1 "call" Instant MActive false 10 "room_1" None) (host_row 2 1 10));
    [reflexivity | reflexivity | discriminate].
Defined.

(** C3: in a non-terminal instant meeting with exactly two
    user-participants, marking an [invited] participant missed sets it to
    [missed] and tears the meeting down as [not_answered]: the media room
    close is invoked, the meeting's chat rows are deleted, and the meeting
    row gets status [not_answered] with [end_time] set. The room name is
    the non-empty one [create_meeting] always assigns. *)
Theorem mark_missed_one_to_one_not_answered (s : store) (mid pid : nat) (m : meeting) (p : participant) :
  meeting_lookup s mid = Some m ->
  m_type m = Instant ->
  meeting_status_in (m_status m) [MCompleted; MCancelled; MNotAnswered] = false ->
  truthy (m_room_name m) = true ->
  participant_lookup s mid pid = Some p ->
  p_status p = Invited ->
  List.length (user_participants (participants_of s mid)) = 2 ->
  exists r s',
    mark_call_as_missed mid pid s = (Ok r, s') /\
    p_status r = Missed /\
    meeting_lookup s' mid = Some (set_m_end MNotAnswered (now s) m) /\
    closed_rooms s' = (closed_rooms s ++ [m_room_name m])%list /\
    filter (fun c => Nat.eqb (c_meeting_id c) mid) (chats s') = [].
Proof.
  intros Hm Hty Hst Hroom Hp Hinv Hcount.
  pose proof (hd_error_filter_In _ _ _ Hp) as [Hin Hsel].
  apply andb_prop in Hsel; destruct Hsel as [Hid Hmid].
  apply Nat.eqb_eq in Hid.
  unfold meeting_lookup in Hm; unfold participant_lookup in Hp.
  lookup_cons Hm; lookup_cons Hp.
  unfold mark_call_as_missed; step; rewrite E; step; rewrite E0; step.
  rewrite Hinv; step.
  destruct (filter (fun q => Nat.eqb (p_id q) pid) (participants s)) as [|q qs] eqn:Eupd.
  { exfalso. assert (In p (filter (fun q => Nat.eqb (p_id q) pid) (participants s)))
      by (apply filter_In; split; [exact Hin | apply Nat.eqb_eq; exact Hid]).
    rewrite Eupd in H; exact H. }
  step; rewrite Hty, Hst; step.
  rewrite (user_count_update mid pid (set_p_status Missed)) by (intros x; split; reflexivity).
  unfold participants_of in Hcount; rewrite Hcount; step.
  assert (Hmiss : existsb (fun q => participant_status_beq (p_status q) Missed)
                    (filter (fun q => Nat.eqb (p_meeting_id q) mid)
                       (map (fun q => if Nat.eqb (p_id q) pid then set_p_status Missed q else q)
                          (participants s))) = true).
  { apply existsb_exists; exists (set_p_status Missed p); split; [|reflexivity].
    apply filter_In; split; [|exact Hmid].
    apply in_map_iff; exists p; rewrite <- Hid, Nat.eqb_refl; auto. }
  rewrite Hmiss; unfold mark_meeting_as_not_answered; step.
  rewrite Hroom; step.
  eexists; eexists; split; [reflexivity|].
  split; [reflexivity|].
  split.
  - unfold meeting_lookup; simpl.
    rewrite filter_map_update; [|intros x Hx; exact Hx].
    rewrite E; reflexivity.
  - split; [reflexivity|]. apply filter_keeps_other_meetings.
Qed.

Lemma mark_missed_one_to_one_not_answered_witness :
  exists r s',
    mark_call_as_missed 1 3 (call_store MScheduled) = (Ok r, s') /\
    p_status r = Missed /\
    meeting_lookup s' 1
      = Some (set_m_end MNotAnswered 100 (mkMeeting 1 "call" Instant MScheduled false 10 "room_1" None)) /\
    closed_rooms s' = (closed_rooms (call_store MScheduled) ++ ["room_1"])%list /\
    filter (fun c => Nat.eqb (c_meeting_id c) 1) (chats s') = [].
Proof.
  apply (mark_missed_one_to_one_not_answered (call_store MScheduled) 1 3
           (mkMeeting 1 "call" Instant MScheduled false 10 "room_1" None) (invited_row 3 1 20));
    reflexivity.
Defined.

(** The auto-termination rule of the evaluator, in the spec's words:
    for an instant meeting, a 1:1 call (two user-participants) with at
    most one active participant, or no active participant at all; for a
    scheduled meeting or a webinar, no active participant. *)
Definition spec_terminates (ty : meeting_type) (ps : list participant) : bool :=
  let n := List.length (active_participants ps) in
  match ty with
  | Instant => (Nat.eqb (List.length (user_participants ps)) 2 && Nat.leb n 1) || Nat.eqb n 0
  | Scheduled | Webinar => Nat.eqb n 0
  end.

Lemma should_end_spec (ty : meeting_type) (ps : list participant) :
  should_end ty ps = spec_terminates ty ps.
Proof.
  unfold should_end, spec_terminates.
  destruct ty; simpl; [|reflexivity|reflexivity].
  destruct (_ && _); reflexivity.
Qed.

(** C2: run on a meeting that is not completed or cancelled (as after a
    leave), the evaluator computes the active set (status neither declined
    nor missed, [left_at] null) and ends the meeting as [completed], with
    [end_time] set, exactly when the spec's rule holds; otherwise it leaves
    the store untouched. *)
Theorem auto_end_exactly_when_rule (s : store) (mid : nat) (m : meeting) :
  meeting_lookup s mid = Some m ->
  meeting_status_in (m_status m) [MCompleted; MCancelled] = false ->
  (spec_terminates (m_type m) (participants_of s mid) = false ->
     check_and_end_meeting_if_needed mid s = (Ok tt, s)) /\
  (spec_terminates (m_type m) (participants_of s mid) = true ->
     exists s', check_and_end_meeting_if_needed mid s = (Ok tt, s') /\
       m_status (set_m_end MCompleted (now s) m) = MCompleted /\
       meeting_lookup s' mid = Some (set_m_end MCompleted (now s) m)).
Proof.
  intros Hm Hst. unfold meeting_lookup in Hm; lookup_cons Hm.
  unfold participants_of.
  unfold check_and_end_meeting_if_needed; step; rewrite E; step; rewrite Hst; step.
  rewrite should_end_spec.
  split; intros Hrule; rewrite Hrule; step; [reflexivity|].
  unfold end_meeting; step; rewrite E; step; rewrite Hst; step.
  destruct (truthy (m_room_name m)); step; rewrite E; step;
    (eexists; split; [reflexivity|]); split; try reflexivity;
    unfold meeting_lookup; cbn [meetings];
    rewrite filter_map_update by (intros x Hx; exact Hx);
    rewrite E; reflexivity.
Qed.

Lemma auto_end_exactly_when_rule_witness :
  check_and_end_meeting_if_needed 1 (call_store MActive) = (Ok tt, call_store MActive) /\
  exists s', check_and_end_meeting_if_needed 1
               (mkStore [mkMeeting 1 "call" Instant MActive false 10 "room_1" None]
                  [host_row 2 1 10; set_p_left Declined 90 (invited_row 3 1 20)] [] [] 5 100)
             = (Ok tt, s') /\
    m_status (set_m_end MCompleted 100 (mkMeeting 1 "call" Instant MActive false 10 "room_1" None))
      = MCompleted /\
    meeting_lookup s' 1
      = Some (set_m_end MCompleted 100 (mkMeeting 1 "call" Instant MActive false 10 "room_1" None)).
Proof.
  split.
  - apply (auto_end_exactly_when_rule (call_store MActive) 1
             (mkMeeting 1 "call" Instant MActive false 10 "room_1" None));
      reflexivity.
  - apply (auto_end_exactly_when_rule
             (mkStore [mkMeeting 1 "call" Instant MActive false 10 "room_1" None]
                [host_row 2 1 10; set_p_left Declined 90 (invited_row 3 1 20)] [] [] 5 100) 1
             (mkMeeting 1 "call" Instant MActive false 10 "room_1" None));
      reflexivity.
Defined.

(** C1 (code_bug): [end_meeting] and the evaluator guard only against
    [completed] and [cancelled], while [mark_call_as_missed] guards against
    [not_answered] as well. On an unanswered call, [end_meeting] closes the
    room again and rewrites the terminal status [not_answered] to
    [completed]; so does the evaluator run by the host's [leave]. *)
Theorem not_answered_meeting_is_ended_again :
  meeting_lookup (call_store MNotAnswered) 1
    = Some (mkMeeting 1 "call" Instant MNotAnswered false 10 "room_1" None) /\
  (exists s', end_meeting 1 (call_store MNotAnswered)
              = (Ok (mkMeeting 1 "call" Instant MCompleted false 10 "room_1" (Some 100)), s') /\
     meeting_lookup s' 1 = Some (mkMeeting 1 "call" Instant MCompleted false 10 "room_1" (Some 100)) /\
     closed_rooms s' = ["room_1"]) /\
  (exists r s', leave_meeting 1 10
                  (mkStore [mkMeeting 1 "call" Instant MNotAnswered false 10 "room_1" (Some 50)]
                     [host_row 2 1 10; set_p_status Missed (invited_row 3 1 20)] [] [] 5 100)
                = (Ok r, s') /\
     meeting_lookup s' 1 = Some (mkMeeting 1 "call" Instant MCompleted false 10 "room_1" (Some 100))).
Proof.
  split; [reflexivity|]. split; eexists; [|eexists]; split; try reflexivity; split; reflexivity.
Qed.



(** The store before the first meeting is created. *)
Definition empty_store : store := mkStore [] [] [] [] 1 100.

(** C6 (counterexample): the host insert fails after the meeting insert
    succeeded; [create_meeting] still succeeds and the meeting has no
    participant row at all, hence none with role [host]. *)
Lemma meeting_created_without_host_row :
  exists m parts s', create_meeting (mkFaults false true false) "standup" 10 Scheduled false "room_1"
                 [mkInput (Some 20) None None Attendee] empty_store = (Ok (m, parts), s') /\
    meeting_lookup s' (m_id m) = Some m /\
    filter (fun p => Nat.eqb (p_meeting_id p) (m_id m)
                     && participant_role_beq (p_role p) Host) (participants s') = [].
Proof.
  do 3 eexists; split; [cbv; reflexivity|]. split; cbv; reflexivity.
Qed.

(** C9 (counterexample): user 30 is neither host nor participant of the
    closed meeting 1; the participant reference 99 resolves to no row and
    [update_participant_status] answers [NotFound], not [Forbidden]. *)
Lemma outsider_status_update_not_found :
  m_is_open (mkMeeting 1 "call" Instant MActive false 10 "room_1" None) = false /\
  update_participant_status 1 99 30 Accepted (call_store MActive)
    = (Err NotFound, call_store MActive).
Proof. split; reflexivity. Qed.

(** The host passes [get_meeting] of its own meeting. *)
Lemma get_meeting_host (s : store) (mid : nat) (m : meeting) :
  meeting_lookup s mid = Some m ->
  get_meeting mid (m_host_id m) s = (Ok m, s).
Proof.
  intros Hm; unfold meeting_lookup in Hm; lookup_cons Hm.
  unfold get_meeting; step; rewrite E; step.
  rewrite Nat.eqb_refl, andb_false_r; reflexivity.
Qed.

Lemma invite_by_host (s : store) (mid : nat) (m : meeting) (pd : participant_input) :
  meeting_lookup s mid = Some m ->
  invite_participant mid (m_host_id m) pd s =
  (p_data <- (match pd_user_id pd with
             | Some u => ret (fun i => mkParticipant i mid (Some u) None None
                                         (pd_role pd) Invited None None)
             | None =>
                 match pd_email pd with
                 | Some e =>
                     if truthy e
                     then ret (fun i => mkParticipant i mid None (Some e)
                                          (pd_name pd) (pd_role pd) Invited None None)
                     else raise BadRequest
                 | None => raise BadRequest
                 end
             end) ;;
   existing <- (match pd_user_id pd with
                | Some u => select_participants (fun p => Nat.eqb (p_meeting_id p) mid
                                                          && eq_user (p_user_id p) (Some u))
                | None => raise QueryError
                end) ;;
   match existing with
   | e :: _ => ret e
   | [] => insert_participant_row p_data
   end) s.
Proof.
  intros Hm. unfold invite_participant at 1.
  unfold bind at 1; rewrite (get_meeting_host s mid m Hm).
  rewrite Nat.eqb_refl; reflexivity.
Qed.

(** C7: inviting, as the host, a user who already has a participant row
    in the meeting returns that (first) row and leaves the store
    unchanged: no new row is inserted. *)
Theorem invite_existing_user_idempotent (s : store) (mid u : nat) (m : meeting)
    (pd : participant_input) (p : participant) :
  meeting_lookup s mid = Some m ->
  pd_user_id pd = Some u ->
  hd_error (filter (fun q => Nat.eqb (p_meeting_id q) mid && eq_user (p_user_id q) (Some u))
              (participants s)) = Some p ->
  invite_participant mid (m_host_id m) pd s = (Ok p, s).
Proof.
  intros Hm Hu Hp. rewrite (invite_by_host s mid m pd Hm).
  lookup_cons Hp. rewrite Hu; step. rewrite E; reflexivity.
Qed.

Lemma invite_existing_user_idempotent_witness :
  invite_participant 1 10 (mkInput (Some 20) None None Attendee) (call_store MActive)
    = (Ok (invited_row 3 1 20), call_store MActive).
Proof.
  apply (invite_existing_user_idempotent (call_store MActive) 1 20
           (mkMeeting 1 "call" Instant MActive false 10 "room_1" None)
           (mkInput (Some 20) None None Attendee)); reflexivity.
Defined.

(** C10 (code bug): an email-only invitation by the host of a meeting
    does not insert a row. The duplicate check filters on
    [user_id=eq.None], which the uuid column rejects, so the call fails
    with the client's query error before the insert, and the store is
    left unchanged: not one row, let alone one per repeated invite. *)
Theorem email_only_invite_query_error :
  invite_participant 1 10 (mkInput None (Some "guest@example.org") (Some "Guest") Attendee)
    (call_store MActive)
  = (Err QueryError, call_store MActive).
Proof. cbv; reflexivity. Qed.

(** Role resolved by [generate_token]: that of the caller's first
    participant row in the meeting, [attendee] when there is none. *)
Definition resolved_role (s : store) (mid uid : nat) : participant_role :=
  match filter (fun p => Nat.eqb (p_meeting_id p) mid && eq_user (p_user_id p) (Some uid))
          (participants s) with
  | p :: _ => p_role p
  | [] => Attendee
  end.

Lemma publish_grant_iff (ty : meeting_type) (role : participant_role) :
  (if meeting_type_beq ty Webinar && participant_role_beq role Attendee then false else true)
    = false <-> ty = Webinar /\ role = Attendee.
Proof.
  destruct ty, role; simpl; split; intros H;
    solve [reflexivity | discriminate | destruct H; discriminate | split; reflexivity].
Qed.

(** C8: every issued token grants subscribe and publish-data, and grants
    publish unless the meeting is a webinar and the resolved role is
    attendee (so a webinar host may publish). The store is not modified. *)
Theorem token_grants (s : store) (mid uid : nat) (name : string) (m : meeting)
    (tok : token) (s' : store) :
  meeting_lookup s mid = Some m ->
  generate_token mid uid name s = (Ok tok, s') ->
  s' = s /\ tok_room tok = m_room_name m /\ tok_room_join tok = true /\
  tok_can_subscribe tok = true /\ tok_can_publish_data tok = true /\
  (tok_can_publish tok = false <-> m_type m = Webinar /\ resolved_role s mid uid = Attendee).
Proof.
  intros Hm. unfold meeting_lookup in Hm; lookup_cons Hm.
  unfold generate_token, get_meeting, resolved_role; step; rewrite E; step.
  destruct (negb (m_is_open m) && negb (Nat.eqb (m_host_id m) uid)) eqn:Ea; step;
  destruct (filter (fun p => Nat.eqb (p_meeting_id p) mid && eq_user (p_user_id p) (Some uid))
              (participants s)) as [|q qs] eqn:Ep; step; try rewrite Ep; step;
  try (intros H; discriminate H);
  try (destruct (m_is_open m); step; [|intros H; discriminate H]);
  intros H; inversion H; subst; cbn;
  (split; [reflexivity|]); (split; [reflexivity|]); (split; [reflexivity|]);
  (split; [reflexivity|]); (split; [reflexivity|]);
  first [ exact (publish_grant_iff (m_type m) Attendee)
        | exact (publish_grant_iff (m_type m) (p_role q)) ].
Qed.

Lemma token_grants_witness :
  exists tok,
    generate_token 1 20 "u" (call_store MActive) = (Ok tok, call_store MActive) /\
    (call_store MActive = call_store MActive /\ tok_room tok = "room_1" /\
     tok_room_join tok = true /\ tok_can_subscribe tok = true /\
     tok_can_publish_data tok = true /\
     (tok_can_publish tok = false <->
        Instant = Webinar /\ resolved_role (call_store MActive) 1 20 = Attendee)).
Proof.
  eexists; split; [cbv; reflexivity|].
  apply (token_grants (call_store MActive) 1 20 "u"
           (mkMeeting 1 "call" Instant MActive false 10 "room_1" None));
    cbv; reflexivity.
Defined.

(** Whether [update_participant_status] resolves its participant
    reference: as a row id of the meeting, or as a user id in it. *)
Definition ref_resolves (s : store) (mid pref : nat) : bool :=
  match filter (fun p => Nat.eqb (p_id p) pref && Nat.eqb (p_meeting_id p) mid) (participants s),
        filter (fun p => Nat.eqb (p_meeting_id p) mid && eq_user (p_user_id p) (Some pref))
          (participants s) with
  | [], [] => false
  | _, _ => true
  end.

Section Outsider.
Variables (s : store) (mid uid : nat) (m : meeting).
Hypothesis Hm : meeting_lookup s mid = Some m.
Hypothesis Hclosed : m_is_open m = false.
Hypothesis Hnot_host : m_host_id m <> uid.
Hypothesis Hno_row :
  filter (fun p => Nat.eqb (p_meeting_id p) mid && eq_user (p_user_id p) (Some uid))
    (participants s) = [].

Lemma get_meeting_outsider : get_meeting mid uid s = (Err Forbidden, s).
Proof.
  unfold meeting_lookup in Hm; lookup_cons Hm.
  unfold get_meeting; step; rewrite E; step.
  rewrite Hclosed; apply Nat.eqb_neq in Hnot_host; rewrite Hnot_host; step.
  rewrite Hno_row; reflexivity.
Qed.

Lemma bind_get_meeting_outsider {A} (k : meeting -> M A) :
  bind (get_meeting mid uid) k s = (Err Forbidden, s).
Proof. unfold bind; rewrite get_meeting_outsider; reflexivity. Qed.
End Outsider.

(** C9 (amended): for a meeting that is not open and an actor who is
    neither its host nor has a participant row in it, [generate_token],
    [send_chat_message], [get_chat_messages] and the mark-missed endpoint
    fail with [Forbidden]; [update_participant_status] fails with
    [Forbidden] when its participant reference resolves to a row of the
    meeting and with [NotFound] otherwise. None of them modifies the
    store. *)
Theorem outsider_denied (s : store) (mid uid : nat) (m : meeting) (name content : string)
    (pid pref : nat) (st : participant_status) :
  meeting_lookup s mid = Some m ->
  m_is_open m = false ->
  m_host_id m <> uid ->
  filter (fun p => Nat.eqb (p_meeting_id p) mid && eq_user (p_user_id p) (Some uid))
    (participants s) = [] ->
  generate_token mid uid name s = (Err Forbidden, s) /\
  send_chat_message mid uid name content s = (Err Forbidden, s) /\
  get_chat_messages mid uid s = (Err Forbidden, s) /\
  mark_call_as_missed_endpoint mid pid uid s = (Err Forbidden, s) /\
  update_participant_status mid pref uid st s
    = (Err (if ref_resolves s mid pref then Forbidden else NotFound), s).
Proof.
  intros Hm Hc Hh Hr.
  pose proof (fun A => @bind_get_meeting_outsider s mid uid m Hm Hc Hh Hr A) as B.
  split; [apply B|]. split; [apply B|]. split; [apply B|]. split; [apply B|].
  unfold update_participant_status, ref_resolves, get_participant_by_user; step.
  destruct (filter (fun p => Nat.eqb (p_id p) pref && Nat.eqb (p_meeting_id p) mid)
              (participants s)) as [|q qs] eqn:E1; step;
  [destruct (filter (fun p => Nat.eqb (p_meeting_id p) mid && eq_user (p_user_id p) (Some pref))
               (participants s)) as [|q qs] eqn:E2; step; try rewrite E2; step |];
  try reflexivity; apply B.
Qed.

Lemma outsider_denied_witness :
  generate_token 1 30 "x" (call_store MActive) = (Err Forbidden, call_store MActive) /\
  send_chat_message 1 30 "x" "hi" (call_store MActive) = (Err Forbidden, call_store MActive) /\
  get_chat_messages 1 30 (call_store MActive) = (Err Forbidden, call_store MActive) /\
  mark_call_as_missed_endpoint 1 3 30 (call_store MActive) = (Err Forbidden, call_store MActive) /\
  update_participant_status 1 3 30 Accepted (call_store MActive)
    = (Err (if ref_resolves (call_store MActive) 1 3 then Forbidden else NotFound),
       call_store MActive).
Proof.
  apply (outsider_denied (call_store MActive) 1 30
           (mkMeeting 1 "call" Instant MActive false 10 "room_1" None));
    [reflexivity | reflexivity | discriminate | reflexivity].
Defined.

Ltac split_matches :=
  repeat (step; match goal with
                | |- context [match ?x with _ => _ end] => destruct x eqn:?
                end).

(** Row ids handed out so far are below [next_id]. *)
Definition store_wf (s : store) : Prop :=
  Forall (fun m => m_id m < next_id s) (meetings s) /\
  Forall (fun p => p_meeting_id p < next_id s) (participants s).

Lemma invitee_row_invited (mid : nat) (p : participant_input) (i : nat) :
  p_status (invitee_row mid p i) = Invited.
Proof.
  unfold invitee_row; destruct (pd_user_id p); [reflexivity|].
  destruct (pd_email p); [destruct (truthy _)|]; reflexivity.
Qed.

Lemma insert_invitees_spec (mid : nat) (ps : list participant_input) (s : store) :
  exists rs,
    insert_invitees mid ps s
      = (Ok rs, mkStore (meetings s) (participants s ++ rs) (chats s) (closed_rooms s)
                  (next_id s + List.length ps) (now s)) /\
    Forall (fun r => p_status r = Invited) rs.
Proof.
  revert s; induction ps as [|p ps IH]; intros s.
  - exists []; split; [|constructor].
    simpl; rewrite app_nil_r, Nat.add_0_r; destruct s; reflexivity.
  - simpl insert_invitees; unfold insert_participant_row; step.
    destruct (IH (mkStore (meetings s) (participants s ++ [invitee_row mid p (next_id s)])
                    (chats s) (closed_rooms s) (S (next_id s)) (now s))) as [rs [Hrs Hall]].
    rewrite Hrs; step.
    exists (invitee_row mid p (next_id s) :: rs); split.
    + rewrite <- app_assoc; cbn [List.length app]; rewrite Nat.add_succ_r; reflexivity.
    + constructor; [apply invitee_row_invited | exact Hall].
Qed.

Lemma filter_below (A : Type) (id : A -> nat) (b : A -> bool) (i : nat) (l : list A) :
  Forall (fun x => id x < i) l ->
  filter (fun x => Nat.eqb (id x) i && b x) l = [].
Proof.
  induction 1 as [|x l Hx _ IH]; simpl; [reflexivity|].
  replace (Nat.eqb (id x) i) with false by (symmetry; apply Nat.eqb_neq; lia).
  exact IH.
Qed.

Lemma filter_invited_not_accepted (i : nat) (rs : list participant) :
  Forall (fun r => p_status r = Invited) rs ->
  filter (fun p => Nat.eqb (p_meeting_id p) i
                   && participant_status_beq (p_status p) Accepted) rs = [].
Proof.
  induction 1 as [|x l Hx _ IH]; simpl; [reflexivity|].
  rewrite Hx, andb_false_r; exact IH.
Qed.

Lemma insert_invitees_in_meeting (mid : nat) (ps : list participant_input) (s : store) :
  exists rs,
    insert_invitees mid ps s
      = (Ok rs, mkStore (meetings s) (participants s ++ rs) (chats s) (closed_rooms s)
                  (next_id s + List.length ps) (now s)) /\
    List.length rs = List.length ps /\
    Forall (fun r => p_meeting_id r = mid /\ p_status r = Invited) rs.
Proof.
  revert s; induction ps as [|p ps IH]; intros s.
  - exists []; split; [|split; [reflexivity | constructor]].
    simpl; rewrite app_nil_r, Nat.add_0_r; destruct s; reflexivity.
  - simpl insert_invitees; unfold insert_participant_row; step.
    destruct (IH (mkStore (meetings s) (participants s ++ [invitee_row mid p (next_id s)])
                    (chats s) (closed_rooms s) (S (next_id s)) (now s)))
      as [rs [Hrs [Hlen Hall]]].
    rewrite Hrs; step.
    exists (invitee_row mid p (next_id s) :: rs); split; [|split].
    + rewrite <- app_assoc; cbn [List.length app]; rewrite Nat.add_succ_r; reflexivity.
    + cbn [List.length]; rewrite Hlen; reflexivity.
    + constructor; [split; [|apply invitee_row_invited] | exact Hall].
      unfold invitee_row; destruct (pd_user_id p); [reflexivity|].
      destruct (pd_email p); [destruct (truthy _)|]; reflexivity.
Qed.

Lemma filter_Forall_id {A : Type} (f : A -> bool) (l : list A) :
  Forall (fun x => f x = true) l -> filter f l = l.
Proof. induction 1 as [|x l Hx _ IH]; simpl; [reflexivity|]; rewrite Hx, IH; reflexivity. Qed.

(** C6 (amended): [create_meeting] inserts the meeting row, then the host
    row (role [host], status [accepted]) in a separate insert, then the
    invitees (status [invited]). When the meeting insert succeeds the call
    succeeds and the meeting exists; the new meeting's only accepted
    participant is the host row when the host insert succeeds, and it has
    no accepted participant (no host row) when that insert fails. The
    participant rows of the new meeting are the host row (unless its
    insert failed) followed by the invitee rows, all [invited], one per
    invitee (none when the batch insert failed). *)
Theorem create_meeting_host_row (f : create_faults) (title : string) (host : nat)
    (ty : meeting_type) (is_open : bool) (room : string) (ps : list participant_input)
    (s : store) :
  store_wf s ->
  meeting_insert_fails f = false ->
  exists m parts s',
    create_meeting f title host ty is_open room ps s = (Ok (m, parts), s') /\
    meeting_lookup s' (m_id m) = Some m /\
    m_status m = MScheduled /\
    filter (fun p => Nat.eqb (p_meeting_id p) (m_id m)
                     && participant_status_beq (p_status p) Accepted) (participants s')
      = (if host_insert_fails f then []
         else [mkParticipant (S (next_id s)) (m_id m) (Some host) None None Host Accepted None None]) /\
    exists rs,
      filter (fun p => Nat.eqb (p_meeting_id p) (m_id m)) (participants s')
        = ((if host_insert_fails f then []
            else [mkParticipant (S (next_id s)) (m_id m) (Some host) None None Host Accepted None None])
           ++ rs)%list /\
      Forall (fun r => p_status r = Invited) rs /\
      List.length rs = (if invitees_insert_fails f then 0 else List.length ps).
Proof.
  intros [Hwm Hwp] Hf.
  assert (Hms : filter (fun m => Nat.eqb (m_id m) (next_id s)) (meetings s) = []).
  { rewrite <- (filter_below meeting m_id (fun _ => true) (next_id s) (meetings s) Hwm).
    apply filter_ext; intros x; rewrite andb_true_r; reflexivity. }
  assert (Hps := filter_below participant p_meeting_id
                   (fun p => participant_status_beq (p_status p) Accepted) (next_id s)
                   (participants s) Hwp).
  assert (Hpm : filter (fun p => Nat.eqb (p_meeting_id p) (next_id s)) (participants s) = []).
  { rewrite <- (filter_below participant p_meeting_id (fun _ => true) (next_id s)
                  (participants s) Hwp).
    apply filter_ext; intros x; rewrite andb_true_r; reflexivity. }
  cbv beta in Hps.
  unfold create_meeting, insert_meeting_row; rewrite Hf; step.
  destruct (host_insert_fails f); step;
  (destruct ps as [|p0 ps0];
   [ step
   | destruct (invitees_insert_fails f) eqn:Hinv; step;
     [ | match goal with
         | |- context [insert_invitees ?mid ?l ?st] =>
             destruct (insert_invitees_in_meeting mid l st) as [rs [Hins [Hlen Hall]]];
             rewrite Hins; step
         end ] ]);
  do 3 eexists; (split; [reflexivity|]);
  (split; [unfold meeting_lookup; cbn [meetings m_id]; rewrite filter_app, Hms; simpl;
           rewrite Nat.eqb_refl; reflexivity|]);
  (split; [reflexivity|]);
  cbn [participants m_id].
  all: try (assert (Hinvs : Forall (fun r => p_status r = Invited) rs)
              by (eapply Forall_impl; [|exact Hall]; intros r H; exact (proj2 H));
            assert (Hin : Forall (fun r => Nat.eqb (p_meeting_id r) (next_id s) = true) rs)
              by (eapply Forall_impl; [|exact Hall]; intros r H; apply Nat.eqb_eq, H)).
  all: split;
       [ repeat rewrite filter_app; rewrite Hps;
         try rewrite (filter_invited_not_accepted (next_id s) rs Hinvs);
         simpl; try rewrite Nat.eqb_refl; reflexivity
       | ].
  all: first
       [ exists rs; split;
         [ repeat rewrite filter_app; rewrite Hpm; simpl; rewrite ?Nat.eqb_refl; simpl;
           rewrite (filter_Forall_id _ rs Hin); reflexivity
         | split; [exact Hinvs | exact Hlen] ]
       | exists []; split;
         [ repeat rewrite filter_app; rewrite Hpm; simpl; rewrite ?Nat.eqb_refl; reflexivity
         | split; [constructor | destruct (invitees_insert_fails f); reflexivity] ] ].
Qed.

Lemma create_meeting_host_row_witness :
  exists m parts s',
    create_meeting (mkFaults false false false) "standup" 10 Scheduled false "room_1"
      [mkInput (Some 20) None None Attendee] empty_store = (Ok (m, parts), s') /\
    meeting_lookup s' (m_id m) = Some m /\
    m_status m = MScheduled /\
    filter (fun p => Nat.eqb (p_meeting_id p) (m_id m)
                     && participant_status_beq (p_status p) Accepted) (participants s')
      = [mkParticipant 2 (m_id m) (Some 10) None None Host Accepted None None] /\
    exists rs,
      filter (fun p => Nat.eqb (p_meeting_id p) (m_id m)) (participants s')
        = ([mkParticipant 2 (m_id m) (Some 10) None None Host Accepted None None] ++ rs)%list /\
      Forall (fun r => p_status r = Invited) rs /\
      List.length rs = 1.
Proof.
  apply (create_meeting_host_row (mkFaults false false false) "standup" 10 Scheduled false
           "room_1" [mkInput (Some 20) None None Attendee] empty_store);
    [split; constructor | reflexivity].
Defined.

(** ** Further operations and properties of the service *)

(** Router handler [POST /{meeting_id}/end]: host check, then the service. *)
Definition end_meeting_endpoint (meeting_id user_id : nat) : M meeting :=
  meeting <- get_meeting meeting_id user_id ;;
  if negb (Nat.eqb (m_host_id meeting) user_id) then raise Forbidden
  else end_meeting meeting_id.

(** Router handler [GET /{meeting_id}/participants/by-user/{user_id}]. *)
Definition get_participant_by_user_endpoint (meeting_id user_id current_user : nat)
  : M participant :=
  meeting <- get_meeting meeting_id current_user ;;
  if negb (Nat.eqb current_user user_id) && negb (Nat.eqb (m_host_id meeting) current_user)
  then raise Forbidden else
  participant <- get_participant_by_user meeting_id user_id ;;
  match participant with
  | None => raise NotFound
  | Some p => ret p
  end.

(** Whether a user has a participant row in a meeting. *)
Definition has_row (s : store) (mid uid : nat) : bool :=
  existsb (fun p => Nat.eqb (p_meeting_id p) mid && eq_user (p_user_id p) (Some uid))
    (participants s).

Lemma filter_nil_existsb {A} (f : A -> bool) (l : list A) :
  existsb f l = match filter f l with [] => false | _ => true end.
Proof.
  induction l as [|x l IH]; simpl; [reflexivity|].
  destruct (f x); simpl; [reflexivity|exact IH].
Qed.

(** [get_meeting] only reads the store. *)
Lemma get_meeting_reads (mid uid : nat) (s : store) : snd (get_meeting mid uid s) = s.
Proof.
  unfold get_meeting; step.
  destruct (filter _ (meetings s)) as [|m ms]; step; [reflexivity|].
  destruct (negb (m_is_open m) && negb (Nat.eqb (m_host_id m) uid)); step; [|reflexivity].
  destruct (filter _ (participants s)); reflexivity.
Qed.

(** X1: [get_meeting] never writes; it fails with [NotFound] for a
    missing meeting, returns the meeting when it is open, when the caller
    is its host or when the caller has a participant row in it, and fails
    with [Forbidden] otherwise. *)
Theorem get_meeting_access (s : store) (mid uid : nat) :
  get_meeting mid uid s =
  (match meeting_lookup s mid with
   | None => Err NotFound
   | Some m => if m_is_open m || Nat.eqb (m_host_id m) uid || has_row s mid uid
               then Ok m else Err Forbidden
   end, s).
Proof.
  unfold get_meeting, meeting_lookup, has_row; step.
  rewrite filter_nil_existsb.
  destruct (filter (fun m => Nat.eqb (m_id m) mid) (meetings s)) as [|m ms]; step;
    [reflexivity|].
  destruct (m_is_open m), (Nat.eqb (m_host_id m) uid); step; try reflexivity.
  destruct (filter _ (participants s)); reflexivity.
Qed.

(** X2: ending a meeting that is neither completed nor cancelled closes
    its room (when it has one), deletes its chat rows and marks it
    [completed] with [end_time]; ending it again returns the same row and
    changes nothing. *)
Theorem end_meeting_twice (s : store) (mid : nat) (m : meeting) :
  meeting_lookup s mid = Some m ->
  meeting_status_in (m_status m) [MCompleted; MCancelled] = false ->
  exists s',
    end_meeting mid s = (Ok (set_m_end MCompleted (now s) m), s') /\
    meeting_lookup s' mid = Some (set_m_end MCompleted (now s) m) /\
    filter (fun c => Nat.eqb (c_meeting_id c) mid) (chats s') = [] /\
    closed_rooms s' = (closed_rooms s ++ (if truthy (m_room_name m) then [m_room_name m] else []))%list /\
    end_meeting mid s' = (Ok (set_m_end MCompleted (now s) m), s').
Proof.
  intros Hm Hst. unfold meeting_lookup in Hm; lookup_cons Hm.
  unfold end_meeting; step; rewrite E; step; rewrite Hst; step.
  destruct (truthy (m_room_name m)); step; rewrite E; step;
    (eexists; split; [reflexivity|]);
    (assert (Hf : filter (fun x => Nat.eqb (m_id x) mid)
                    (map (fun x => if Nat.eqb (m_id x) mid then set_m_end MCompleted (now s) x else x)
                       (meetings s)) = set_m_end MCompleted (now s) m :: map (set_m_end MCompleted (now s)) rest)
      by (rewrite filter_map_update by (intros x Hx; exact Hx); rewrite E; reflexivity));
    (split; [unfold meeting_lookup; cbn [meetings]; rewrite Hf; reflexivity|]);
    (split; [cbn [chats]; apply filter_keeps_other_meetings|]);
    (split; [cbn [closed_rooms]; try rewrite app_nil_r; reflexivity|]);
    step; rewrite Hf; reflexivity.
Qed.

Lemma end_meeting_twice_witness :
  exists s',
    end_meeting 1 (call_store MActive)
      = (Ok (set_m_end MCompleted 100 (mkMeeting 1 "call" Instant MActive false 10 "room_1" None)), s') /\
    meeting_lookup s' 1
      = Some (set_m_end MCompleted 100 (mkMeeting 1 "call" Instant MActive false 10 "room_1" None)) /\
    filter (fun c => Nat.eqb (c_meeting_id c) 1) (chats s') = [] /\
    closed_rooms s' = (closed_rooms (call_store MActive)
                        ++ (if truthy "room_1" then ["room_1"] else []))%list /\
    end_meeting 1 s'
      = (Ok (set_m_end MCompleted 100 (mkMeeting 1 "call" Instant MActive false 10 "room_1" None)), s').
Proof.
  apply (end_meeting_twice (call_store MActive) 1
           (mkMeeting 1 "call" Instant MActive false 10 "room_1" None)); reflexivity.
Defined.

(** X3: [end_meeting] on a completed or cancelled meeting returns the
    current row and changes nothing (no room close, no chat purge). *)
Theorem end_meeting_terminal_noop (s : store) (mid : nat) (m : meeting) :
  meeting_lookup s mid = Some m ->
  meeting_status_in (m_status m) [MCompleted; MCancelled] = true ->
  end_meeting mid s = (Ok m, s).
Proof.
  intros Hm Hst. unfold meeting_lookup in Hm; lookup_cons Hm.
  unfold end_meeting; step; rewrite E; step; rewrite Hst; reflexivity.
Qed.

Lemma end_meeting_terminal_noop_witness :
  end_meeting 1 (call_store MCancelled)
    = (Ok (mkMeeting 1 "call" Instant MCancelled false 10 "room_1" None), call_store MCancelled).
Proof.
  apply (end_meeting_terminal_noop (call_store MCancelled) 1
           (mkMeeting 1 "call" Instant MCancelled false 10 "room_1" None)); reflexivity.
Defined.

Lemma in_filter_other_meeting (mid : nat) (c : chat_message) (l : list chat_message) :
  c_meeting_id c <> mid ->
  (In c (filter (fun x => negb (Nat.eqb (c_meeting_id x) mid)) l) <-> In c l).
Proof.
  intros Hc; rewrite filter_In; apply Nat.eqb_neq in Hc; rewrite Hc; simpl; tauto.
Qed.

(** X4: whatever its outcome, [end_meeting] leaves the participant table
    untouched and keeps every chat row of other meetings. *)
Theorem end_meeting_local (s : store) (mid : nat) :
  let s' := snd (end_meeting mid s) in
  participants s' = participants s /\
  (forall c, c_meeting_id c <> mid -> (In c (chats s') <-> In c (chats s))).
Proof.
  unfold end_meeting; step.
  destruct (filter (fun m => Nat.eqb (m_id m) mid) (meetings s)) as [|m ms] eqn:E; step;
    [split; [reflexivity | tauto]|].
  destruct (meeting_status_in (m_status m) [MCompleted; MCancelled]); step;
    [split; [reflexivity | tauto]|].
  destruct (truthy (m_room_name m)); step; rewrite E; step;
    (split; [reflexivity | intros c Hc; apply in_filter_other_meeting; exact Hc]).
Qed.

(** X5: only the host ends a meeting through the endpoint: any other
    caller gets [Forbidden] and nothing changes. *)
Theorem end_endpoint_host_only (s : store) (mid uid : nat) (m : meeting) :
  meeting_lookup s mid = Some m ->
  m_host_id m <> uid ->
  end_meeting_endpoint mid uid s = (Err Forbidden, s).
Proof.
  intros Hm Hh. unfold end_meeting_endpoint, bind at 1.
  rewrite get_meeting_access, Hm.
  apply Nat.eqb_neq in Hh; rewrite Hh.
  destruct (m_is_open m || false || has_row s mid uid); rewrite ?Hh; reflexivity.
Qed.

Lemma end_endpoint_host_only_witness :
  end_meeting_endpoint 1 20 (call_store MActive) = (Err Forbidden, call_store MActive).
Proof.
  apply (end_endpoint_host_only (call_store MActive) 1 20
           (mkMeeting 1 "call" Instant MActive false 10 "room_1" None));
    [reflexivity | discriminate].
Defined.

(** X6: the by-user participant endpoint serves only the requested user
    and the host: another caller gets [Forbidden] and nothing changes;
    the requested user gets their first row in the meeting, or
    [NotFound] without one. *)
Theorem participant_by_user_endpoint_access (s : store) (mid uid cur : nat) (m : meeting) :
  meeting_lookup s mid = Some m ->
  (cur <> uid -> m_host_id m <> cur ->
     get_participant_by_user_endpoint mid uid cur s = (Err Forbidden, s)) /\
  (has_row s mid uid = true ->
     get_participant_by_user_endpoint mid uid uid s
       = (match filter (fun p => Nat.eqb (p_meeting_id p) mid && eq_user (p_user_id p) (Some uid))
                  (participants s) with
          | p :: _ => Ok p
          | [] => Err NotFound
          end, s)).
Proof.
  intros Hm; split.
  - intros Hc Hh. unfold get_participant_by_user_endpoint, bind at 1.
    rewrite get_meeting_access, Hm.
    apply Nat.eqb_neq in Hc; apply Nat.eqb_neq in Hh; rewrite Hh.
    destruct (m_is_open m || false || has_row s mid cur); rewrite ?Hh, ?Hc; reflexivity.
  - intros Hr. unfold get_participant_by_user_endpoint, bind at 1.
    rewrite get_meeting_access, Hm, Hr, orb_true_r, Nat.eqb_refl.
    unfold get_participant_by_user; step.
    destruct (filter _ (participants s)); reflexivity.
Qed.

Lemma participant_by_user_endpoint_access_witness :
  (30 <> 20 -> 10 <> 30 ->
     get_participant_by_user_endpoint 1 20 30 (call_store MActive)
       = (Err Forbidden, call_store MActive)) /\
  (has_row (call_store MActive) 1 20 = true ->
     get_participant_by_user_endpoint 1 20 20 (call_store MActive)
       = (match filter (fun p => Nat.eqb (p_meeting_id p) 1 && eq_user (p_user_id p) (Some 20))
                  (participants (call_store MActive)) with
          | p :: _ => Ok p
          | [] => Err NotFound
          end, call_store MActive)).
Proof.
  apply (participant_by_user_endpoint_access (call_store MActive) 1 20 30
           (mkMeeting 1 "call" Instant MActive false 10 "room_1" None)); reflexivity.
Defined.




(** X8: a caller who may see a meeting sends a chat message and then
    reads the chat: the new row carries the caller and the content, and
    the history is the previous one followed by the new row. *)
Theorem chat_send_then_get (s : store) (mid uid : nat) (name content : string) (m : meeting) :
  get_meeting mid uid s = (Ok m, s) ->
  exists c s',
    send_chat_message mid uid name content s = (Ok c, s') /\
    c_meeting_id c = mid /\ c_sender_id c = uid /\ c_sender_name c = name /\
    c_content c = content /\
    get_chat_messages mid uid s'
      = (Ok (filter (fun x => Nat.eqb (c_meeting_id x) mid) (chats s) ++ [c])%list, s').
Proof.
  intros Hg. unfold send_chat_message, bind at 1; rewrite Hg.
  unfold insert_chat_row; step.
  do 2 eexists; split; [reflexivity|]. do 4 (split; [reflexivity|]).
  unfold get_chat_messages, bind at 1.
  rewrite get_meeting_access. rewrite get_meeting_access in Hg.
  unfold meeting_lookup, has_row in *; cbn [meetings participants] in *.
  destruct (hd_error _) as [m'|]; [|discriminate Hg].
  destruct (_ || _ || _); [|discriminate Hg].
  step; rewrite filter_app; simpl; rewrite Nat.eqb_refl; reflexivity.
Qed.

Lemma chat_send_then_get_witness :
  exists c s',
    send_chat_message 1 20 "u" "hi" (call_store MActive) = (Ok c, s') /\
    c_meeting_id c = 1 /\ c_sender_id c = 20 /\ c_sender_name c = "u" /\ c_content c = "hi" /\
    get_chat_messages 1 20 s'
      = (Ok (filter (fun x => Nat.eqb (c_meeting_id x) 1) (chats (call_store MActive)) ++ [c])%list, s').
Proof.
  apply (chat_send_then_get (call_store MActive) 1 20 "u" "hi"
           (mkMeeting 1 "call" Instant MActive false 10 "room_1" None)); reflexivity.
Defined.

(** X9: outside a non-terminal instant meeting with exactly two
    user-participants, [mark_call_as_missed] never touches the meeting
    rows, the chat rows or the media rooms: only the participant row can
    change. *)
Theorem mark_missed_meeting_untouched (s : store) (mid pid : nat) (m : meeting) :
  meeting_lookup s mid = Some m ->
  m_type m <> Instant \/
  meeting_status_in (m_status m) [MCompleted; MCancelled; MNotAnswered] = true \/
  List.length (user_participants (participants_of s mid)) <> 2 ->
  let s' := snd (mark_call_as_missed mid pid s) in
  meetings s' = meetings s /\ chats s' = chats s /\ closed_rooms s' = closed_rooms s.
Proof.
  intros Hm Hcase. unfold meeting_lookup in Hm; lookup_cons Hm.
  unfold mark_call_as_missed; step; rewrite E; step.
  destruct (filter (fun p => Nat.eqb (p_id p) pid && Nat.eqb (p_meeting_id p) mid)
              (participants s)) as [|p ps]; step; [auto|].
  destruct (participant_status_beq (p_status p) Invited); step; [|auto].
  destruct (filter (fun q => Nat.eqb (p_id q) pid) (participants s)); step; [auto|].
  unfold participants_of in Hcase.
  destruct Hcase as [Hty | [Hst | Hc]].
  - destruct (m_type m); try (exfalso; apply Hty; reflexivity); step; auto.
  - rewrite Hst; step; destruct (meeting_type_beq (m_type m) Instant); step; auto.
  - destruct (_ && _); step; [|auto].
    rewrite (user_count_update mid pid (set_p_status Missed)) by (intros x; split; reflexivity).
    apply Nat.eqb_neq in Hc; rewrite Hc; step; auto.
Qed.

Lemma mark_missed_meeting_untouched_witness :
  let s := mkStore [mkMeeting 1 "standup" Scheduled MActive false 10 "room_1" None]
                   [host_row 2 1 10; invited_row 3 1 20] [] [] 5 100 in
  let s' := snd (mark_call_as_missed 1 3 s) in
  meetings s' = meetings s /\ chats s' = chats s /\ closed_rooms s' = closed_rooms s.
Proof.
  apply (mark_missed_meeting_untouched _ 1 3
           (mkMeeting 1 "standup" Scheduled MActive false 10 "room_1" None));
    [reflexivity | left; discriminate].
Defined.

(** X10: through the mark-missed endpoint, a caller who is neither the
    row's user nor the meeting's host gets [Forbidden] and nothing
    changes. *)
Theorem mark_missed_endpoint_owner_or_host (s : store) (mid pid uid : nat)
    (m : meeting) (p : participant) :
  meeting_lookup s mid = Some m ->
  participant_lookup s mid pid = Some p ->
  m_host_id m <> uid ->
  p_user_id p <> Some uid ->
  mark_call_as_missed_endpoint mid pid uid s = (Err Forbidden, s).
Proof.
  intros Hm Hp Hh Hu. unfold participant_lookup in Hp; lookup_cons Hp.
  unfold mark_call_as_missed_endpoint, bind at 1.
  rewrite get_meeting_access, Hm.
  apply Nat.eqb_neq in Hh; rewrite Hh.
  destruct (m_is_open m || false || has_row s mid uid); [|reflexivity].
  step; rewrite E; step; rewrite Hh.
  replace (eq_user (p_user_id p) (Some uid)) with false; [reflexivity|].
  destruct (p_user_id p) as [v|]; [|reflexivity]; simpl.
  symmetry; apply Nat.eqb_neq; intros ->; apply Hu; reflexivity.
Qed.

Lemma mark_missed_endpoint_owner_or_host_witness :
  mark_call_as_missed_endpoint 1 3 30
    (mkStore [mkMeeting 1 "call" Instant MActive true 10 "room_1" None]
             [host_row 2 1 10; invited_row 3 1 20] [] [] 5 100)
  = (Err Forbidden, mkStore [mkMeeting 1 "call" Instant MActive true 10 "room_1" None]
                            [host_row 2 1 10; invited_row 3 1 20] [] [] 5 100).
Proof.
  apply (mark_missed_endpoint_owner_or_host _ 1 3 30
           (mkMeeting 1 "call" Instant MActive true 10 "room_1" None) (invited_row 3 1 20));
    [reflexivity | reflexivity | discriminate | discriminate].
Defined.

(** X11: [update_participant_status] with a status other than
    [accepted] or [declined] always fails and never writes. *)
Theorem update_status_invalid_rejected (s : store) (mid pref uid : nat)
    (st : participant_status) :
  participant_status_in st [Accepted; Declined] = false ->
  exists e, update_participant_status mid pref uid st s = (Err e, s).
Proof.
  intros Hst. unfold update_participant_status, get_participant_by_user; step.
  rewrite Hst. split_matches; try (eexists; reflexivity).
  all: repeat match goal with
         | H : (match ?x with _ => _ end) _ = (_, _) |- _ =>
             destruct x; cbv beta iota in H; inversion H; subst; clear H
         | H : get_meeting ?a ?b ?s1 = (_, ?s0) |- _ =>
             pose proof (get_meeting_reads a b s1) as Hr; rewrite H in Hr;
             simpl in Hr; subst s0; clear H
         end; eexists; reflexivity.
Qed.

Lemma update_status_invalid_rejected_witness :
  exists e, update_participant_status 1 3 20 Missed (call_store MActive)
              = (Err e, call_store MActive).
Proof. apply (update_status_invalid_rejected (call_store MActive) 1 3 20 Missed); reflexivity. Defined.

(** X12: only the host may invite: any other caller of an existing
    meeting gets [Forbidden] and nothing is inserted. *)
Theorem invite_non_host_forbidden (s : store) (mid uid : nat) (m : meeting)
    (pd : participant_input) :
  meeting_lookup s mid = Some m ->
  m_host_id m <> uid ->
  invite_participant mid uid pd s = (Err Forbidden, s).
Proof.
  intros Hm Hh. unfold invite_participant, bind at 1.
  rewrite get_meeting_access, Hm.
  apply Nat.eqb_neq in Hh.
  destruct (m_is_open m || Nat.eqb (m_host_id m) uid || has_row s mid uid);
    [|reflexivity].
  rewrite Hh; reflexivity.
Qed.

Lemma invite_non_host_forbidden_witness :
  invite_participant 1 20 (mkInput (Some 30) None None Attendee) (call_store MActive)
  = (Err Forbidden, call_store MActive).
Proof.
  apply (invite_non_host_forbidden (call_store MActive) 1 20
           (mkMeeting 1 "call" Instant MActive false 10 "room_1" None));
    [reflexivity | discriminate].
Defined.

(** X13: an invitation by the host with neither a user reference nor a
    non-empty email is rejected with [BadRequest] and inserts nothing. *)
Theorem invite_without_identity_rejected (s : store) (mid : nat) (m : meeting)
    (pd : participant_input) :
  meeting_lookup s mid = Some m ->
  pd_user_id pd = None ->
  match pd_email pd with Some e => truthy e = false | None => True end ->
  invite_participant mid (m_host_id m) pd s = (Err BadRequest, s).
Proof.
  intros Hm Hu He. rewrite (invite_by_host s mid m pd Hm), Hu.
  destruct (pd_email pd) as [e|]; [rewrite He|]; reflexivity.
Qed.

Lemma invite_without_identity_rejected_witness :
  invite_participant 1 10 (mkInput None (Some "") (Some "x") Attendee) (call_store MActive)
  = (Err BadRequest, call_store MActive).
Proof.
  apply (invite_without_identity_rejected (call_store MActive) 1
           (mkMeeting 1 "call" Instant MActive false 10 "room_1" None)
           (mkInput None (Some "") (Some "x") Attendee)); reflexivity.
Defined.

Lemma insert_invitees_rows (mid : nat) (ps : list participant_input) (s : store) :
  exists rs,
    insert_invitees mid ps s
      = (Ok rs, mkStore (meetings s) (participants s ++ rs) (chats s) (closed_rooms s)
                  (next_id s + List.length ps) (now s)) /\
    List.length rs = List.length ps /\
    Forall (fun r => p_meeting_id r = mid) rs.
Proof.
  revert s; induction ps as [|p ps IH]; intros s.
  - exists []; split; [|split; [reflexivity | constructor]].
    simpl; rewrite app_nil_r, Nat.add_0_r; destruct s; reflexivity.
  - simpl insert_invitees; unfold insert_participant_row; step.
    destruct (IH (mkStore (meetings s) (participants s ++ [invitee_row mid p (next_id s)])
                    (chats s) (closed_rooms s) (S (next_id s)) (now s)))
      as [rs [Hrs [Hlen Hall]]].
    rewrite Hrs; step.
    exists (invitee_row mid p (next_id s) :: rs); split; [|split].
    + rewrite <- app_assoc; cbn [List.length app]; rewrite Nat.add_succ_r; reflexivity.
    + cbn [List.length]; rewrite Hlen; reflexivity.
    + constructor; [|exact Hall].
      unfold invitee_row; destruct (pd_user_id p); [reflexivity|].
      destruct (pd_email p); [destruct (truthy _)|]; reflexivity.
Qed.

(** X14: the outcome of [create_meeting] is exactly what it inserted:
    it fails only when the meeting insert fails, and then nothing is
    written; otherwise the meeting row is appended, the returned
    participants are exactly the appended participant rows, all in the
    new meeting, one for the host unless that insert failed and one per
    invitee unless the batch insert failed; chats and rooms are left
    alone. *)
Theorem create_meeting_outcome (f : create_faults) (title : string) (host : nat)
    (ty : meeting_type) (is_open : bool) (room : string) (ps : list participant_input)
    (s : store) :
  match create_meeting f title host ty is_open room ps s with
  | (Err e, s') => meeting_insert_fails f = true /\ e = BadRequest /\ s' = s
  | (Ok (m, parts), s') =>
      meeting_insert_fails f = false /\
      meetings s' = (meetings s ++ [m])%list /\
      participants s' = (participants s ++ parts)%list /\
      chats s' = chats s /\ closed_rooms s' = closed_rooms s /\
      Forall (fun p => p_meeting_id p = m_id m) parts /\
      List.length parts = (if host_insert_fails f then 0 else 1)
                          + (if invitees_insert_fails f then 0 else List.length ps)
  end.
Proof.
  unfold create_meeting; destruct (meeting_insert_fails f) eqn:Hf; step.
  { split; [reflexivity | split; [reflexivity | destruct s; reflexivity]]. }
  unfold insert_meeting_row; step.
  destruct (host_insert_fails f); step;
  (destruct ps as [|p0 ps0];
   [ step
   | destruct (invitees_insert_fails f); step;
     [ | match goal with
         | |- context [insert_invitees ?mid ?l ?st] =>
             destruct (insert_invitees_rows mid l st) as [rs [Hins [Hlen Hall]]];
             rewrite Hins; step
         end ] ]);
  cbn [meetings participants chats closed_rooms m_id];
  repeat split; try reflexivity;
  solve [ rewrite app_nil_r; reflexivity
        | rewrite <- app_assoc; reflexivity
        | repeat constructor
        | constructor; [reflexivity | assumption]
        | assumption
        | cbn [List.length]; rewrite Hlen; reflexivity
        | destruct (invitees_insert_fails f); reflexivity ].
Qed.

(** ** Listings: [get_user_meetings] and [get_invited_participants] *)

(** A dict built by a comprehension [{key(r): val(r) for r in rows}] and
    then read with [k in d] / [d[k]] or [d.get(k)]: the last row with a
    given key wins. *)
Definition dict_comp {A V : Type} (key : A -> nat) (val : A -> V) (rows : list A)
    (k : nat) : option V :=
  fold_left (fun acc r => if Nat.eqb (key r) k then Some (val r) else acc) rows None.

(** [id.in.(...)] of [get_user_meetings]: with no ids the query uses the
    nil UUID as placeholder, which is the id of no row. *)
Definition id_in_or_nil (mid : nat) (ids : list nat) : bool :=
  match ids with
  | [] => false
  | _ => existsb (Nat.eqb mid) ids
  end.

(** [meeting["user_participant_status"]]: the user's participant status,
    or ["host"]. *)
Inductive user_participant_status := UStatus (st : participant_status) | UHost.

Section Listings.

(** [.order("start_time", desc=True)] on meetings, and
    [.order("created_at", desc=True)] on participant rows; the model has
    no timestamps for these orders, so they are parameters. *)
Variable order_meetings : list meeting -> list meeting.
Variable created_at : participant -> nat.
Variable order_invites : list participant -> list participant.

Definition get_user_meetings (user_id : nat)
  : M (list (meeting * option user_participant_status)) :=
  participating <- select_participants (fun p => eq_user (p_user_id p) (Some user_id)) ;;
  let meeting_ids := map p_meeting_id participating in
  let participant_status_map := dict_comp p_meeting_id p_status participating in
  ms <- gets (fun s => order_meetings
                         (filter (fun m => Nat.eqb (m_host_id m) user_id
                                           || id_in_or_nil (m_id m) meeting_ids)
                            (meetings s))) ;;
  ret (map (fun m =>
              (m, match participant_status_map (m_id m) with
                  | Some st => Some (UStatus st)
                  | None => if Nat.eqb (m_host_id m) user_id then Some UHost else None
                  end)) ms).

(** Times are seconds; [five_minutes_ago] is [utcnow - 300]. *)
Definition get_invited_participants (user_id : nat) : M (list participant) :=
  t <- utcnow ;;
  let five_minutes_ago := t - 300 in
  ps <- gets (fun s => order_invites
                         (filter (fun p => eq_user (p_user_id p) (Some user_id)
                                           && participant_status_beq (p_status p) Invited
                                           && Nat.leb five_minutes_ago (created_at p))
                            (participants s))) ;;
  match ps with
  | [] => ret []
  | _ =>
      let meeting_ids := map p_meeting_id ps in
      ms <- gets (fun s => filter (fun m => existsb (Nat.eqb (m_id m)) meeting_ids)
                             (meetings s)) ;;
      let meeting_types := dict_comp m_id m_type ms in
      ret (filter (fun p => match meeting_types (p_meeting_id p) with
                            | Some ty => meeting_type_beq ty Instant
                            | None => false
                            end) ps)
  end.

End Listings.

Lemma dict_comp_cases {A V : Type} (key : A -> nat) (val : A -> V) (rows : list A) (k : nat) :
  (dict_comp key val rows k = None /\ filter (fun r => Nat.eqb (key r) k) rows = []) \/
  (exists rs r, filter (fun r => Nat.eqb (key r) k) rows = (rs ++ [r])%list /\
                dict_comp key val rows k = Some (val r)).
Proof.
  unfold dict_comp; induction rows as [|x rows IH] using rev_ind.
  - left; split; reflexivity.
  - rewrite fold_left_app, filter_app; simpl.
    destruct (Nat.eqb (key x) k).
    + right; exists (filter (fun r => Nat.eqb (key r) k) rows), x; split; reflexivity.
    + rewrite app_nil_r; exact IH.
Qed.

Lemma filter_filter_andb {A : Type} (f g : A -> bool) (l : list A) :
  filter g (filter f l) = filter (fun x => f x && g x) l.
Proof.
  induction l as [|x l IH]; simpl; [reflexivity|].
  destruct (f x); simpl; [destruct (g x); simpl|]; rewrite IH; reflexivity.
Qed.

Lemma app_snoc_neq_nil {A : Type} (rs : list A) (r : A) : (rs ++ [r])%list <> [].
Proof. destruct rs; discriminate. Qed.

Lemma id_in_rows (u : participant -> bool) (k : nat) (ps : list participant) :
  id_in_or_nil k (map p_meeting_id (filter u ps)) = true <->
  filter (fun q => u q && Nat.eqb (p_meeting_id q) k) ps <> [].
Proof.
  assert (Hex : forall ids, id_in_or_nil k ids = existsb (Nat.eqb k) ids)
    by (intros [|i ids]; reflexivity).
  rewrite Hex; clear Hex.
  induction ps as [|p ps IH]; simpl.
  - split; [discriminate | intros H; exfalso; apply H; reflexivity].
  - destruct (u p); simpl; [|exact IH].
    rewrite (Nat.eqb_sym (p_meeting_id p) k).
    destruct (Nat.eqb k (p_meeting_id p)); simpl; [|exact IH].
    split; [intros _; discriminate | reflexivity].
Qed.

(** X15: [get_user_meetings] only reads, and lists exactly the meetings
    the user hosts or has a participant row in, each once per meeting
    row. Each is annotated with the status of the user's LAST row in it
    (the dict comprehension keeps the last one), or with ["host"] when
    the user hosts it without having a row; no listed meeting is left
    unannotated. *)
Theorem user_meetings_listed (order_meetings : list meeting -> list meeting)
    (s : store) (uid : nat) :
  (forall l, Permutation (order_meetings l) l) ->
  exists ms,
    get_user_meetings order_meetings uid s = (Ok ms, s) /\
    forall m a, In (m, a) ms <->
      In m (meetings s) /\
      ((exists rs p,
          filter (fun q => eq_user (p_user_id q) (Some uid) && Nat.eqb (p_meeting_id q) (m_id m))
            (participants s) = (rs ++ [p])%list /\
          a = Some (UStatus (p_status p))) \/
       (filter (fun q => eq_user (p_user_id q) (Some uid) && Nat.eqb (p_meeting_id q) (m_id m))
          (participants s) = [] /\
        m_host_id m = uid /\ a = Some UHost)).
Proof.
  intros Hperm. unfold get_user_meetings; step.
  eexists; split; [reflexivity|]. intros m a.
  set (u := fun p => eq_user (p_user_id p) (Some uid)).
  set (F := filter (fun q => eq_user (p_user_id q) (Some uid) && Nat.eqb (p_meeting_id q) (m_id m))
              (participants s)).
  assert (HF : filter (fun r => Nat.eqb (p_meeting_id r) (m_id m)) (filter u (participants s)) = F)
    by (unfold F, u; rewrite filter_filter_andb; reflexivity).
  assert (Hid := id_in_rows u (m_id m) (participants s)). fold F in Hid.
  rewrite in_map_iff; split.
  - intros [m0 [Heq Hin]]. inversion Heq; subst m0; clear Heq.
    apply (Permutation_in _ (Hperm _)), filter_In in Hin; destruct Hin as [Hin Hsel].
    split; [exact Hin|].
    destruct (dict_comp_cases p_meeting_id p_status (filter u (participants s)) (m_id m))
      as [[Hn Hf] | [rs [r [Hf Hs]]]]; rewrite HF in Hf.
    + right. rewrite Hn. split; [exact Hf|].
      destruct (Nat.eqb (m_host_id m) uid) eqn:Eh.
      * split; [apply Nat.eqb_eq; exact Eh | reflexivity].
      * exfalso. simpl in Hsel. apply Hid in Hsel. apply Hsel, Hf.
    + left. exists rs, r. rewrite Hs. split; [exact Hf | reflexivity].
  - intros [Hin Hcase]. exists m.
    destruct (dict_comp_cases p_meeting_id p_status (filter u (participants s)) (m_id m))
      as [[Hn Hf] | [rs [r [Hf Hs]]]]; rewrite HF in Hf;
    destruct Hcase as [[rs' [p [Hp Ha]]] | [Hp [Hh Ha]]]; rewrite Hp in Hf.
    + exfalso; exact (app_snoc_neq_nil rs' p Hf).
    + split.
      * rewrite Hn, Ha, Hh, Nat.eqb_refl; reflexivity.
      * apply (Permutation_in _ (Permutation_sym (Hperm _))), filter_In.
        split; [exact Hin|]. rewrite Hh, Nat.eqb_refl; reflexivity.
    + split.
      * apply app_inj_tail in Hf; destruct Hf as [_ Hf]; subst r.
        rewrite Hs, Ha; reflexivity.
      * apply (Permutation_in _ (Permutation_sym (Hperm _))), filter_In.
        split; [exact Hin|]. apply orb_true_iff; right.
        apply Hid; intros Hc; apply (app_snoc_neq_nil rs' p); rewrite <- Hp; exact Hc.
    + exfalso; symmetry in Hf; exact (app_snoc_neq_nil rs r Hf).
Qed.

(** User 20 hosts meeting 2 and has two rows in meeting 3, the later one
    still [invited]. *)
Definition listing_store : store :=
  mkStore [mkMeeting 1 "call" Instant MActive false 10 "room_1" None;
           mkMeeting 2 "standup" Scheduled MScheduled false 20 "room_2" None;
           mkMeeting 3 "talk" Webinar MActive true 30 "room_3" None]
          [host_row 4 1 10; invited_row 5 1 20;
           mkParticipant 6 3 (Some 20) None None Attendee Declined None None;
           invited_row 7 3 20]
          [] [] 8 1000.

Lemma user_meetings_listed_witness :
  exists ms,
    get_user_meetings (@rev meeting) 20 listing_store = (Ok ms, listing_store) /\
    forall m a, In (m, a) ms <->
      In m (meetings listing_store) /\
      ((exists rs p,
          filter (fun q => eq_user (p_user_id q) (Some 20) && Nat.eqb (p_meeting_id q) (m_id m))
            (participants listing_store) = (rs ++ [p])%list /\
          a = Some (UStatus (p_status p))) \/
       (filter (fun q => eq_user (p_user_id q) (Some 20) && Nat.eqb (p_meeting_id q) (m_id m))
          (participants listing_store) = [] /\
        m_host_id m = 20 /\ a = Some UHost)).
Proof.
  apply (user_meetings_listed (@rev meeting) listing_store 20).
  intros l; apply Permutation_sym, Permutation_rev.
Defined.

Lemma invite_sel_iff (uid t ct : nat) (p : participant) :
  eq_user (p_user_id p) (Some uid) && participant_status_beq (p_status p) Invited
    && Nat.leb t ct = true <->
  p_user_id p = Some uid /\ p_status p = Invited /\ t <= ct.
Proof.
  rewrite !andb_true_iff, Nat.leb_le.
  assert (Hu : eq_user (p_user_id p) (Some uid) = true <-> p_user_id p = Some uid).
  { destruct (p_user_id p) as [v|]; simpl; [rewrite Nat.eqb_eq|];
      split; intros H; congruence. }
  assert (Hs : participant_status_beq (p_status p) Invited = true <-> p_status p = Invited).
  { destruct (p_status p); simpl; split; intros H; congruence. }
  rewrite Hu, Hs; tauto.
Qed.

Lemma instant_type_iff (ids : list nat) (ms : list meeting) (k : nat) :
  In k ids ->
  match dict_comp m_id m_type (filter (fun m => existsb (Nat.eqb (m_id m)) ids) ms) k with
  | Some ty => meeting_type_beq ty Instant
  | None => false
  end = true <->
  exists rs m, filter (fun m => Nat.eqb (m_id m) k) ms = (rs ++ [m])%list /\ m_type m = Instant.
Proof.
  intros Hk.
  assert (Hf : filter (fun m => Nat.eqb (m_id m) k)
                 (filter (fun m => existsb (Nat.eqb (m_id m)) ids) ms)
               = filter (fun m => Nat.eqb (m_id m) k) ms).
  { rewrite filter_filter_andb; apply filter_ext; intros m.
    destruct (Nat.eqb (m_id m) k) eqn:E; [|apply andb_false_r].
    apply Nat.eqb_eq in E; rewrite E, andb_true_r.
    apply existsb_exists; exists k; split; [exact Hk | apply Nat.eqb_refl]. }
  destruct (dict_comp_cases m_id m_type (filter (fun m => existsb (Nat.eqb (m_id m)) ids) ms) k)
    as [[Hn Hl] | [rs [r [Hl Hs]]]]; rewrite Hf in Hl.
  - rewrite Hn; split; [discriminate|].
    intros [rs [m [Hl' _]]]; rewrite Hl in Hl'; symmetry in Hl'.
    exfalso; exact (app_snoc_neq_nil rs m Hl').
  - rewrite Hs, Hl; split.
    + intros H; exists rs, r; split; [reflexivity|].
      destruct (m_type r); try discriminate H; reflexivity.
    + intros [rs' [m [Hl' Ht]]]. apply app_inj_tail in Hl'; destruct Hl' as [_ ->].
      rewrite Ht; reflexivity.
Qed.

(** X16: [get_invited_participants] only reads, and returns exactly the
    user's rows still [invited] that were created in the last five
    minutes and whose meeting (the last meeting row with that id) is an
    instant call. *)
Theorem invited_calls_listed (created_at : participant -> nat)
    (order_invites : list participant -> list participant) (s : store) (uid : nat) :
  (forall l, Permutation (order_invites l) l) ->
  exists ps,
    get_invited_participants created_at order_invites uid s = (Ok ps, s) /\
    forall p, In p ps <->
      In p (participants s) /\ p_user_id p = Some uid /\ p_status p = Invited /\
      now s - 300 <= created_at p /\
      exists rs m, filter (fun m => Nat.eqb (m_id m) (p_meeting_id p)) (meetings s)
                     = (rs ++ [m])%list /\ m_type m = Instant.
Proof.
  intros Hperm. unfold get_invited_participants; step.
  set (L := filter (fun p => eq_user (p_user_id p) (Some uid)
                             && participant_status_beq (p_status p) Invited
                             && Nat.leb (now s - 300) (created_at p)) (participants s)).
  assert (Hmem : forall p, In p (order_invites L) <->
            In p (participants s) /\ p_user_id p = Some uid /\ p_status p = Invited /\
            now s - 300 <= created_at p).
  { intros p; split; intros H.
    - apply (Permutation_in _ (Hperm L)), filter_In in H; destruct H as [Hin Hs].
      apply invite_sel_iff in Hs; tauto.
    - apply (Permutation_in _ (Permutation_sym (Hperm L))), filter_In.
      split; [tauto|]. apply invite_sel_iff; tauto. }
  destruct (order_invites L) as [|x xs] eqn:Eo; step.
  - exists []; split; [reflexivity|]. intros p; split; [intros []|].
    intros [Hin [Hu [Hs [Ht _]]]]. apply (Hmem p); tauto.
  - eexists; split; [reflexivity|]. intros p. rewrite filter_In.
    split.
    + intros [Hin Hty]. pose proof (proj1 (Hmem p) Hin) as H.
      apply (instant_type_iff (map p_meeting_id (x :: xs))) in Hty;
        [tauto | apply in_map; exact Hin].
    + intros [Hin [Hu [Hs [Ht Hty]]]].
      assert (Hp : In p (x :: xs)) by (apply Hmem; tauto).
      split; [exact Hp|].
      apply (instant_type_iff (map p_meeting_id (x :: xs))); [apply in_map; exact Hp | exact Hty].
Qed.

Definition invite_store : store :=
  mkStore [mkMeeting 1 "call" Instant MActive false 10 "room_1" None;
           mkMeeting 2 "standup" Scheduled MScheduled false 10 "room_2" None]
          [host_row 3 1 10; invited_row 4 1 20; invited_row 5 2 20]
          [] [] 6 1000.

Lemma invited_calls_listed_witness :
  exists ps,
    get_invited_participants (fun p => 900 + p_id p) (@rev participant) 20 invite_store
      = (Ok ps, invite_store) /\
    forall p, In p ps <->
      In p (participants invite_store) /\ p_user_id p = Some 20 /\ p_status p = Invited /\
      now invite_store - 300 <= 900 + p_id p /\
      exists rs m, filter (fun m => Nat.eqb (m_id m) (p_meeting_id p)) (meetings invite_store)
                     = (rs ++ [m])%list /\ m_type m = Instant.
Proof.
  apply (invited_calls_listed (fun p => 900 + p_id p) (@rev participant) invite_store 20).
  intros l; apply Permutation_sym, Permutation_rev.
Defined.

Lemma filter_absent_id (k : nat) (l : list participant) :
  ~ In k (map p_id l) -> filter (fun q => Nat.eqb (p_id q) k) l = [].
Proof.
  induction l as [|x l IH]; simpl; intros H; [reflexivity|].
  replace (Nat.eqb (p_id x) k) with false by (symmetry; apply Nat.eqb_neq; tauto).
  apply IH; tauto.
Qed.

(** With unique row ids, the rows selected by the id of a row are that row. *)
Lemma filter_unique_id (p : participant) (l : list participant) :
  In p l -> NoDup (map p_id l) -> filter (fun q => Nat.eqb (p_id q) (p_id p)) l = [p].
Proof.
  induction l as [|x l IH]; simpl; intros Hin Hnd; [contradiction|].
  inversion Hnd as [|? ? Hx Hnd']; subst.
  destruct Hin as [-> | Hin].
  - rewrite Nat.eqb_refl, filter_absent_id; [reflexivity | exact Hx].
  - replace (Nat.eqb (p_id x) (p_id p)) with false; [apply IH; assumption|].
    symmetry; apply Nat.eqb_neq; intros He; apply Hx; rewrite He; apply in_map, Hin.
Qed.

Lemma map_update_other_rows (pid mid : nat) (upd : participant -> participant)
    (l : list participant) (q : participant) :
  (forall x, In x l -> p_id x = pid -> p_meeting_id x = mid) ->
  (forall x, p_meeting_id (upd x) = p_meeting_id x) ->
  p_meeting_id q <> mid ->
  In q (map (fun x => if Nat.eqb (p_id x) pid then upd x else x) l) <-> In q l.
Proof.
  intros Hl Hu Hq; rewrite in_map_iff; split.
  - intros [y [Hy Hin]]. destruct (Nat.eqb (p_id y) pid) eqn:E.
    + apply Nat.eqb_eq in E. exfalso; apply Hq; subst q; rewrite Hu; exact (Hl y Hin E).
    + subst; exact Hin.
  - intros Hin; exists q; split; [|exact Hin].
    destruct (Nat.eqb (p_id q) pid) eqn:E; [|reflexivity].
    apply Nat.eqb_eq in E; exfalso; exact (Hq (Hl q Hin E)).
Qed.

(** With unique row ids, after rewriting the rows carrying the id of row
    [p], the only row with that id is the rewritten [p]. *)
Lemma map_update_unique (p : participant) (upd : participant -> participant)
    (l : list participant) (q : participant) :
  In p l -> NoDup (map p_id l) ->
  In q (map (fun x => if Nat.eqb (p_id x) (p_id p) then upd x else x) l) ->
  (forall x, p_id (upd x) = p_id x) ->
  p_id q = p_id p -> q = upd p.
Proof.
  intros Hin Hnd Hq Hu Hid. apply in_map_iff in Hq; destruct Hq as [y [Hy Hiny]].
  destruct (Nat.eqb (p_id y) (p_id p)) eqn:E.
  - assert (Hy' : In y (filter (fun x => Nat.eqb (p_id x) (p_id p)) l))
      by (apply filter_In; split; assumption).
    rewrite (filter_unique_id p l Hin Hnd) in Hy'.
    destruct Hy' as [<- | []]; subst q; reflexivity.
  - subst q. rewrite Hid, Nat.eqb_refl in E; discriminate E.
Qed.

Lemma map_update_other_ids (pid : nat) (upd : participant -> participant)
    (l : list participant) (q : participant) :
  p_id q <> pid -> (forall x, p_id (upd x) = p_id x) ->
  In q (map (fun x => if Nat.eqb (p_id x) pid then upd x else x) l) <-> In q l.
Proof.
  intros Hq Hu; rewrite in_map_iff; split.
  - intros [y [Hy Hin]]. destruct (Nat.eqb (p_id y) pid) eqn:E.
    + apply Nat.eqb_eq in E. exfalso; apply Hq; subst q; rewrite Hu; exact E.
    + subst; exact Hin.
  - intros Hin; exists q; split; [|exact Hin].
    apply Nat.eqb_neq in Hq; rewrite Hq; reflexivity.
Qed.

(** X17: with unique participant row ids, a successful
    [update_participant_status] writes only the resolved row: a row of
    the meeting it was called for whose id, or else whose user, is the
    given reference. The returned row is that row rewritten (same id and
    user), it is the only row with its id afterwards, and every row with
    another id, in this meeting or any other, is kept as it was. The
    returned row carries the new status (and, for [accepted], the join
    time [now]); meetings are left as they were. *)
Theorem update_status_stays_in_meeting (s : store) (mid pref uid : nat)
    (st : participant_status) (r : participant) (s' : store) :
  NoDup (map p_id (participants s)) ->
  update_participant_status mid pref uid st s = (Ok r, s') ->
  (exists p, In p (participants s) /\ p_meeting_id p = mid /\
     (p_id p = pref \/ p_user_id p = Some pref) /\
     p_id r = p_id p /\ p_user_id r = p_user_id p /\ In r (participants s') /\
     (forall q, In q (participants s') -> p_id q = p_id p -> q = r) /\
     (forall q, p_id q <> p_id p -> (In q (participants s') <-> In q (participants s)))) /\
  p_meeting_id r = mid /\ p_status r = st /\
  (st = Accepted -> p_joined_at r = Some (now s)) /\
  meetings s' = meetings s /\
  (forall q, p_meeting_id q <> mid -> (In q (participants s') <-> In q (participants s))).
Proof.
  intros Hnd. unfold update_participant_status, get_participant_by_user; step.
  destruct (hd_error (filter (fun p => Nat.eqb (p_id p) pref && Nat.eqb (p_meeting_id p) mid)
                       (participants s))) as [p|] eqn:H1; step.
  2: destruct (hd_error (filter (fun p => Nat.eqb (p_meeting_id p) mid
                                         && eq_user (p_user_id p) (Some pref))
                           (participants s))) as [p|] eqn:H2; step.
  3: destruct (hd_error (filter (fun p => Nat.eqb (p_meeting_id p) mid
                                         && eq_user (p_user_id p) (Some pref))
                           (participants s))) as [p|] eqn:H3; step;
       [| intros H; discriminate H].
  all: match goal with
       | H : hd_error (filter _ _) = Some _ |- _ =>
           apply hd_error_filter_In in H; destruct H as [Hin Hsel];
           apply andb_prop in Hsel;
           assert (Hmid : p_meeting_id p = mid)
             by (destruct Hsel as [Hs1 Hs2];
                 first [apply Nat.eqb_eq; exact Hs1 | apply Nat.eqb_eq; exact Hs2]);
           assert (Hres : p_id p = pref \/ p_user_id p = Some pref)
             by (destruct Hsel as [Hs1 Hs2];
                 first [ left; apply Nat.eqb_eq; exact Hs1
                       | right; destruct (p_user_id p) as [v|];
                         [apply Nat.eqb_eq in Hs2; rewrite Hs2; reflexivity | discriminate Hs2] ]);
           clear Hsel
       end.
  all: destruct (get_meeting mid uid s) as [[m|e] s0] eqn:Hg;
       pose proof (get_meeting_reads mid uid s) as Hr; rewrite Hg in Hr; simpl in Hr; subst s0;
       cbv beta iota; [|intros H; discriminate H].
  all: destruct (negb (eq_user (p_user_id p) (Some uid) || Nat.eqb (m_host_id m) uid));
       [intros H; discriminate H|].
  all: destruct (negb (participant_status_in st [Accepted; Declined]));
       [intros H; discriminate H|].
  all: rewrite (filter_unique_id p _ Hin Hnd); cbn [map];
       intros H; injection H as <- <-.
  all: assert (Hupd : forall x, p_meeting_id
                 ((if participant_status_beq st Accepted then set_p_status_joined st (now s)
                   else set_p_status st) x) = p_meeting_id x)
         by (intros x; destruct (participant_status_beq st Accepted); reflexivity).
  all: assert (Hupd_id : forall x, p_id
                 ((if participant_status_beq st Accepted then set_p_status_joined st (now s)
                   else set_p_status st) x) = p_id x)
         by (intros x; destruct (participant_status_beq st Accepted); reflexivity).
  all: split;
       [ exists p; split; [exact Hin|]; split; [exact Hmid|]; split; [exact Hres|];
         split; [apply Hupd_id|];
         split; [destruct (participant_status_beq st Accepted); reflexivity|];
         cbn [participants]; split;
         [ apply in_map_iff; exists p; split; [|exact Hin]; rewrite Nat.eqb_refl; reflexivity |];
         split;
         [ intros q Hq Hid; exact (map_update_unique p _ _ q Hin Hnd Hq Hupd_id Hid)
         | intros q Hq; exact (map_update_other_ids (p_id p) _ _ q Hq Hupd_id) ]
       | ].
  all: split; [rewrite Hupd; exact Hmid|].
  all: split; [destruct (participant_status_beq st Accepted); reflexivity|].
  all: split; [intros ->; reflexivity|].
  all: split; [reflexivity|].
  all: intros q Hq; cbn [participants]; eapply map_update_other_rows; [|exact Hupd|exact Hq].
  all: intros x Hx Hid.
  all: assert (Hx' : In x (filter (fun q => Nat.eqb (p_id q) (p_id p)) (participants s)))
         by (apply filter_In; split; [exact Hx | apply Nat.eqb_eq; exact Hid]).
  all: rewrite (filter_unique_id p _ Hin Hnd) in Hx'; destruct Hx' as [<- | []]; exact Hmid.
Qed.

Lemma update_status_stays_in_meeting_witness :
  exists r s',
    update_participant_status 1 3 20 Accepted (call_store MActive) = (Ok r, s') /\
    ((exists p, In p (participants (call_store MActive)) /\ p_meeting_id p = 1 /\
        (p_id p = 3 \/ p_user_id p = Some 3) /\
        p_id r = p_id p /\ p_user_id r = p_user_id p /\ In r (participants s') /\
        (forall q, In q (participants s') -> p_id q = p_id p -> q = r) /\
        (forall q, p_id q <> p_id p ->
           (In q (participants s') <-> In q (participants (call_store MActive))))) /\
     p_meeting_id r = 1 /\ p_status r = Accepted /\
     (Accepted = Accepted -> p_joined_at r = Some (now (call_store MActive))) /\
     meetings s' = meetings (call_store MActive) /\
     (forall q, p_meeting_id q <> 1 ->
        (In q (participants s') <-> In q (participants (call_store MActive))))).
Proof.
  eexists; eexists; split; [cbv; reflexivity|].
  apply (update_status_stays_in_meeting (call_store MActive) 1 3 20 Accepted);
    [| cbv; reflexivity].
  cbv; constructor; [intros [H|H]; [discriminate H | exact H] | constructor; [intros [] | constructor]].
Defined.



